(** * telegram/files/inputmedia.py: the five InputMedia records

    A shallow embedding of [InputMedia], [InputMediaAnimation],
    [InputMediaPhoto], [InputMediaVideo], [InputMediaAudio] and
    [InputMediaDocument].

    A Python object is its [__dict__]: a finite map from attribute names to
    Python values.  A constructor is the sequence of attribute assignments
    of its [__init__], run in a small state-and-exception monad whose state
    holds the object under construction and the supply of attachment keys.
    [to_dict] runs in the same monad, so that what it reads and what it
    leaves untouched is visible in its result. *)

From stdpp Require Import base option list strings gmap.
From Stdlib Require Import ZArith.

Set Warnings "-register-all".
Local Open Scope Z_scope.

(** ** Python values *)

(** What an upload is made from: [bytes], an open file-like object (known
    by its handle) or a [pathlib.Path]. *)
Inductive payload :=
| FromBytes (b : list Byte.byte)
| FromHandle (fd : nat)
| FromPath (p : string).

(** Modelled from the spec: [telegram.InputFile], the attachment-tagged
    reference (glossary); the class is imported by the module and not
    defined in it.  It keeps the payload, the generated attachment key
    (present when the file was built with [attach=True]) and the custom
    file name. *)
Record InputFile := mkInputFile {
  input_file_obj : payload;
  input_file_attach : option nat;
  input_file_filename : option string
}.

(** Modelled from the spec: [telegram.MessageEntity], a caption entity
    with its kind, offset and length (glossary). *)
Record MessageEntity := mkMessageEntity {
  entity_type : string;
  entity_offset : Z;
  entity_length : Z
}.

(** Modelled from the spec: the metadata records [telegram.Animation],
    [telegram.Video], [telegram.Audio], [telegram.Document] and
    [telegram.PhotoSize], with the attributes the constructors read. *)
Record Animation := mkAnimation {
  animation_file_id : string;
  animation_width : Z;
  animation_height : Z;
  animation_duration : Z
}.

Record Video := mkVideo {
  video_file_id : string;
  video_width : Z;
  video_height : Z;
  video_duration : Z
}.

Record Audio := mkAudio {
  audio_file_id : string;
  audio_duration : Z;
  audio_performer : option string;
  audio_title : option string
}.

Record Document := mkDocument { document_file_id : string }.

Record PhotoSize := mkPhotoSize { photo_size_file_id : string }.

Inductive pyval :=
| PyNone
| DEFAULT_NONE                      (* telegram.utils.helpers.DEFAULT_NONE *)
| PyBool (b : bool)
| PyInt (z : Z)
| PyStr (s : string)
| PyBytes (b : list Byte.byte)
| PyFile (fd : nat)                 (* an open file-like object *)
| PyPath (p : string)               (* pathlib.Path *)
| PyList (l : list pyval)
| PyDict (d : gmap string pyval)
| PyAttach (key : nat)              (* serialized form of an attached InputFile *)
| PyInputFile (f : InputFile)
| PyMessageEntity (e : MessageEntity)
| PyAnimation (a : Animation)
| PyAudio (a : Audio)
| PyDocument (d : Document)
| PyPhotoSize (p : PhotoSize)
| PyVideo (v : Video).

(** [bool(v)]: what [if v:] tests.  An object without [__bool__] or
    [__len__] is truthy; [DEFAULT_NONE] stands for an omitted argument and
    is taken as falsy, like [None]. *)
Definition truthy (v : pyval) : bool :=
  match v with
  | PyNone | DEFAULT_NONE => false
  | PyBool b => b
  | PyInt z => negb (z =? 0)
  | PyStr s => negb (String.eqb s "")
  | PyBytes b => match b with [] => false | _ => true end
  | PyList l => match l with [] => false | _ => true end
  | PyDict d => match map_to_list d with [] => false | _ => true end
  | _ => true
  end.

(** Optional arguments: [None] is Python's [None], the default of every
    optional parameter but [parse_mode], whose default is [DEFAULT_NONE]. *)
Definition py_str (o : option string) : pyval := from_option PyStr PyNone o.
Definition py_int (o : option Z) : pyval := from_option PyInt PyNone o.
Definition py_bool (o : option bool) : pyval := from_option PyBool PyNone o.
Definition py_entities (o : option (list MessageEntity)) : pyval :=
  from_option (fun l => PyList (PyMessageEntity <$> l)) PyNone o.
Definition py_parse_mode (o : option string) : pyval :=
  from_option PyStr DEFAULT_NONE o.

(** The classes that [isinstance] is asked about. *)
Inductive tg_class := ClsAnimation | ClsAudio | ClsDocument | ClsPhotoSize | ClsVideo.

Definition isinstance (v : pyval) (c : tg_class) : bool :=
  match v, c with
  | PyAnimation _, ClsAnimation
  | PyAudio _, ClsAudio
  | PyDocument _, ClsDocument
  | PyPhotoSize _, ClsPhotoSize
  | PyVideo _, ClsVideo => true
  | _, _ => false
  end.

(** [isinstance(v, Animation)] and the like, with the instance at hand
    in the positive branch. *)
Definition as_animation (v : pyval) : option Animation :=
  match v with PyAnimation a => Some a | _ => None end.

Definition as_video (v : pyval) : option Video :=
  match v with PyVideo x => Some x | _ => None end.

Definition as_audio (v : pyval) : option Audio :=
  match v with PyAudio a => Some a | _ => None end.

(** ** The monad: object state, key supply and exceptions *)

Inductive exn := TypeError | AttributeError.

Inductive result (A : Type) :=
| Ok (a : A)
| Raise (e : exn).
Arguments Ok {A} a.
Arguments Raise {A} e.

Record world := World {
  uuid_next : nat;                  (* the next attachment key *)
  self_dict : gmap string pyval     (* self.__dict__ *)
}.

Definition M (A : Type) : Type := world -> result (A * world).

Definition ret {A} (a : A) : M A := fun w => Ok (a, w).

Definition bind {A B} (m : M A) (f : A -> M B) : M B :=
  fun w => match m w with
           | Ok (a, w') => f a w'
           | Raise e => Raise e
           end.

Definition raise {A} (e : exn) : M A := fun _ => Raise e.

Declare Scope py_scope.
Notation "x <- m ;; k" := (bind m (fun x => k))
  (at level 100, m at next level, right associativity) : py_scope.
Notation "m ;; k" := (bind m (fun _ => k))
  (at level 100, right associativity) : py_scope.
Local Open Scope py_scope.

(** [self.name = v] *)
Definition setattr (name : string) (v : pyval) : M unit :=
  fun w => Ok (tt, World (uuid_next w) (<[name := v]> (self_dict w))).

(** The class attributes of [InputMedia]: [caption_entities = None]. *)
Definition class_attribute (name : string) : option pyval :=
  if String.eqb name "caption_entities" then Some PyNone else None.

(** [self.name]: the instance attribute, else the class attribute. *)
Definition getattr (name : string) : M pyval :=
  fun w => match self_dict w !! name with
           | Some v => Ok (v, w)
           | None => match class_attribute name with
                     | Some v => Ok (v, w)
                     | None => Raise AttributeError
                     end
           end.

(** [self.__dict__] *)
Definition get_dict : M (gmap string pyval) := fun w => Ok (self_dict w, w).

(** A fresh attachment key. *)
Definition uuid4 : M nat :=
  fun w => Ok (uuid_next w, World (S (uuid_next w)) (self_dict w)).

(** [if b: m] *)
Definition when (b : bool) (m : M unit) : M unit := if b then m else ret tt.

(** ** Collaborators that the module imports *)

(** Modelled from the spec: the constructor of [telegram.InputFile]; with
    [attach] it tags the payload with a generated attachment key. *)
Definition InputFile_new (obj : payload) (attach : bool) (filename : option string)
  : M InputFile :=
  if attach then
    key <- uuid4 ;;
    ret (mkInputFile obj (Some key) filename)
  else ret (mkInputFile obj None filename).

Definition file_id (v : pyval) : option string :=
  match v with
  | PyAnimation a => Some (animation_file_id a)
  | PyAudio a => Some (audio_file_id a)
  | PyDocument d => Some (document_file_id d)
  | PyPhotoSize p => Some (photo_size_file_id p)
  | PyVideo v => Some (video_file_id v)
  | _ => None
  end.

(** Modelled from the spec: [telegram.utils.helpers.parse_file_input], the
    media-reference resolver of section 4.1, which is imported and not
    defined in the module.  Strings pass through unchanged; byte payloads
    and file handles are wrapped into an [InputFile], and so is a path,
    which names a local file (section 3 knows no other local reference);
    an instance of [tg_type] gives its remote identifier; anything else is
    a type error. *)
Definition parse_file_input (file_input : pyval) (tg_type : option tg_class)
    (attach : bool) (filename : option string) : M pyval :=
  match file_input with
  | PyStr s => ret (PyStr s)
  | PyBytes b => f <- InputFile_new (FromBytes b) attach filename ;; ret (PyInputFile f)
  | PyFile fd => f <- InputFile_new (FromHandle fd) attach filename ;; ret (PyInputFile f)
  | PyPath p => f <- InputFile_new (FromPath p) attach filename ;; ret (PyInputFile f)
  | _ =>
      match tg_type with
      | Some c =>
          if isinstance file_input c
          then from_option (fun s => ret (PyStr s)) (raise TypeError) (file_id file_input)
          else raise TypeError
      | None => raise TypeError
      end
  end.

(** Modelled from the spec: [MessageEntity.to_dict], every field by name. *)
Definition MessageEntity_to_dict (e : MessageEntity) : gmap string pyval :=
  <["length" := PyInt (entity_length e)]>
    (<["offset" := PyInt (entity_offset e)]>
       (<["type" := PyStr (entity_type e)]> ∅)).

(** Modelled from the spec: how the base serializer renders one attribute
    value (section 4.2).  An unset value, [None] or the [DEFAULT_NONE]
    placeholder of an omitted parse mode, is left out; an [InputFile]
    becomes the reference to its attachment key; a nested entity becomes
    its own mapping; every other value is taken as it is. *)
Definition to_dict_value (v : pyval) : option pyval :=
  match v with
  | PyNone | DEFAULT_NONE => None
  | PyInputFile f => PyAttach <$> input_file_attach f
  | PyMessageEntity e => Some (PyDict (MessageEntity_to_dict e))
  | _ => Some v
  end.

(** Modelled from the spec: [TelegramObject.to_dict], the base serializer
    behind [super().to_dict()], which is not part of the module: a fresh
    mapping with every set field by name, unset fields omitted. *)
Definition TelegramObject_to_dict : M (gmap string pyval) :=
  d <- get_dict ;;
  ret (omap to_dict_value d).

(** ** InputMedia *)

(** [ce.to_dict()] for one element of the caption entities. *)
Definition entity_to_dict (ce : pyval) : M pyval :=
  match ce with
  | PyMessageEntity e => ret (PyDict (MessageEntity_to_dict e))
  | _ => raise AttributeError
  end.

Fixpoint for_each {A B} (f : A -> M B) (l : list A) : M (list B) :=
  match l with
  | [] => ret []
  | x :: l' =>
      y <- f x ;;
      ys <- for_each f l' ;;
      ret (y :: ys)
  end.

(** [[ce.to_dict() for ce in v]].  Iterating a string, a byte string or a
    mapping yields characters, integers or keys, none of which has
    [to_dict]: the first element raises an attribute error, and nothing
    is raised when there is no element.  The other values are taken as not
    iterable, which is a type error. *)
Definition entities_to_dict (v : pyval) : M (list pyval) :=
  match v with
  | PyList l => for_each entity_to_dict l
  | PyStr s => if String.eqb s "" then ret [] else raise AttributeError
  | PyBytes b => match b with [] => ret [] | _ => raise AttributeError end
  | PyDict d =>
      match map_to_list d with [] => ret [] | _ => raise AttributeError end
  | _ => raise TypeError
  end.

(** [InputMedia.to_dict] *)
Definition InputMedia_to_dict : M (gmap string pyval) :=
  data <- TelegramObject_to_dict ;;
  caption_entities <- getattr "caption_entities" ;;
  if truthy caption_entities then
    l <- entities_to_dict caption_entities ;;
    ret (<["caption_entities" := PyList l]> data)
  else
    ret data.

(** ** The five constructors *)

(** [InputMediaAnimation.__init__] *)
Definition InputMediaAnimation (media thumb : pyval) (caption parse_mode : option string)
    (width height duration : option Z) (caption_entities : option (list MessageEntity))
    (filename : option string) : M unit :=
  setattr "type" (PyStr "animation") ;;
  match as_animation media with
  | Some a =>
      setattr "media" (PyStr (animation_file_id a)) ;;
      setattr "width" (PyInt (animation_width a)) ;;
      setattr "height" (PyInt (animation_height a)) ;;
      setattr "duration" (PyInt (animation_duration a))
  | None =>
      m <- parse_file_input media None true filename ;;
      setattr "media" m
  end ;;
  when (truthy thumb)
    (t <- parse_file_input thumb None true None ;; setattr "thumb" t) ;;
  when (truthy (py_str caption)) (setattr "caption" (py_str caption)) ;;
  setattr "parse_mode" (py_parse_mode parse_mode) ;;
  setattr "caption_entities" (py_entities caption_entities) ;;
  when (truthy (py_int width)) (setattr "width" (py_int width)) ;;
  when (truthy (py_int height)) (setattr "height" (py_int height)) ;;
  when (truthy (py_int duration)) (setattr "duration" (py_int duration)).

(** [InputMediaPhoto.__init__] *)
Definition InputMediaPhoto (media : pyval) (caption parse_mode : option string)
    (caption_entities : option (list MessageEntity)) (filename : option string) : M unit :=
  setattr "type" (PyStr "photo") ;;
  (m <- parse_file_input media (Some ClsPhotoSize) true filename ;;
   setattr "media" m) ;;
  when (truthy (py_str caption)) (setattr "caption" (py_str caption)) ;;
  setattr "parse_mode" (py_parse_mode parse_mode) ;;
  setattr "caption_entities" (py_entities caption_entities).

(** [InputMediaVideo.__init__] *)
Definition InputMediaVideo (media : pyval) (caption : option string)
    (width height duration : option Z) (supports_streaming : option bool)
    (parse_mode : option string) (thumb : pyval)
    (caption_entities : option (list MessageEntity)) (filename : option string) : M unit :=
  setattr "type" (PyStr "video") ;;
  match as_video media with
  | Some v =>
      setattr "media" (PyStr (video_file_id v)) ;;
      setattr "width" (PyInt (video_width v)) ;;
      setattr "height" (PyInt (video_height v)) ;;
      setattr "duration" (PyInt (video_duration v))
  | None =>
      m <- parse_file_input media None true filename ;;
      setattr "media" m
  end ;;
  when (truthy thumb)
    (t <- parse_file_input thumb None true None ;; setattr "thumb" t) ;;
  when (truthy (py_str caption)) (setattr "caption" (py_str caption)) ;;
  setattr "parse_mode" (py_parse_mode parse_mode) ;;
  setattr "caption_entities" (py_entities caption_entities) ;;
  when (truthy (py_int width)) (setattr "width" (py_int width)) ;;
  when (truthy (py_int height)) (setattr "height" (py_int height)) ;;
  when (truthy (py_int duration)) (setattr "duration" (py_int duration)) ;;
  when (truthy (py_bool supports_streaming))
    (setattr "supports_streaming" (py_bool supports_streaming)).

(** [InputMediaAudio.__init__] *)
Definition InputMediaAudio (media thumb : pyval) (caption parse_mode : option string)
    (duration : option Z) (performer title : option string)
    (caption_entities : option (list MessageEntity)) (filename : option string) : M unit :=
  setattr "type" (PyStr "audio") ;;
  match as_audio media with
  | Some a =>
      setattr "media" (PyStr (audio_file_id a)) ;;
      setattr "duration" (PyInt (audio_duration a)) ;;
      setattr "performer" (py_str (audio_performer a)) ;;
      setattr "title" (py_str (audio_title a))
  | None =>
      m <- parse_file_input media None true filename ;;
      setattr "media" m
  end ;;
  when (truthy thumb)
    (t <- parse_file_input thumb None true None ;; setattr "thumb" t) ;;
  when (truthy (py_str caption)) (setattr "caption" (py_str caption)) ;;
  setattr "parse_mode" (py_parse_mode parse_mode) ;;
  setattr "caption_entities" (py_entities caption_entities) ;;
  when (truthy (py_int duration)) (setattr "duration" (py_int duration)) ;;
  when (truthy (py_str performer)) (setattr "performer" (py_str performer)) ;;
  when (truthy (py_str title)) (setattr "title" (py_str title)).

(** [InputMediaDocument.__init__] *)
Definition InputMediaDocument (media thumb : pyval) (caption parse_mode : option string)
    (disable_content_type_detection : option bool)
    (caption_entities : option (list MessageEntity)) (filename : option string) : M unit :=
  setattr "type" (PyStr "document") ;;
  (m <- parse_file_input media (Some ClsDocument) true filename ;;
   setattr "media" m) ;;
  when (truthy thumb)
    (t <- parse_file_input thumb None true None ;; setattr "thumb" t) ;;
  when (truthy (py_str caption)) (setattr "caption" (py_str caption)) ;;
  setattr "parse_mode" (py_parse_mode parse_mode) ;;
  setattr "caption_entities" (py_entities caption_entities) ;;
  setattr "disable_content_type_detection" (py_bool disable_content_type_detection).

(** ** Calling a constructor, calling a method *)

Inductive kind := KAnimation | KPhoto | KVideo | KAudio | KDocument.

(** The discriminant that each kind writes into [type]. *)
Definition type_name (k : kind) : string :=
  match k with
  | KAnimation => "animation"
  | KPhoto => "photo"
  | KVideo => "video"
  | KAudio => "audio"
  | KDocument => "document"
  end.

(** The keyword arguments of a call; a constructor reads the ones in its
    signature. *)
Record arguments := mk_arguments {
  arg_media : pyval;
  arg_thumb : pyval;
  arg_caption : option string;
  arg_parse_mode : option string;
  arg_width : option Z;
  arg_height : option Z;
  arg_duration : option Z;
  arg_supports_streaming : option bool;
  arg_performer : option string;
  arg_title : option string;
  arg_disable_content_type_detection : option bool;
  arg_caption_entities : option (list MessageEntity);
  arg_filename : option string
}.

(** A call with the media argument alone: every other parameter keeps its
    default. *)
Definition only_media (media : pyval) : arguments :=
  mk_arguments media PyNone None None None None None None None None None None None.

Definition init (k : kind) (a : arguments) : M unit :=
  match k with
  | KAnimation =>
      InputMediaAnimation (arg_media a) (arg_thumb a) (arg_caption a) (arg_parse_mode a)
        (arg_width a) (arg_height a) (arg_duration a) (arg_caption_entities a)
        (arg_filename a)
  | KPhoto =>
      InputMediaPhoto (arg_media a) (arg_caption a) (arg_parse_mode a)
        (arg_caption_entities a) (arg_filename a)
  | KVideo =>
      InputMediaVideo (arg_media a) (arg_caption a) (arg_width a) (arg_height a)
        (arg_duration a) (arg_supports_streaming a) (arg_parse_mode a) (arg_thumb a)
        (arg_caption_entities a) (arg_filename a)
  | KAudio =>
      InputMediaAudio (arg_media a) (arg_thumb a) (arg_caption a) (arg_parse_mode a)
        (arg_duration a) (arg_performer a) (arg_title a) (arg_caption_entities a)
        (arg_filename a)
  | KDocument =>
      InputMediaDocument (arg_media a) (arg_thumb a) (arg_caption a) (arg_parse_mode a)
        (arg_disable_content_type_detection a) (arg_caption_entities a) (arg_filename a)
  end.

(** [K(...)]: [__init__] runs on a fresh object; the object is returned
    only when [__init__] does not raise. *)
Definition new (k : kind) (a : arguments) (key : nat)
  : result (gmap string pyval * nat) :=
  match init k a (World key ∅) with
  | Ok (_, w) => Ok (self_dict w, uuid_next w)
  | Raise e => Raise e
  end.

(** ** Vocabulary of the statements, and the closed forms of a run *)

(** The effect of [if v: self.name = v] on the attributes. *)
Definition assign_if (name : string) (v : pyval) (d : gmap string pyval)
  : gmap string pyval :=
  if truthy v then <[name := v]> d else d.

(** [v] is uploaded: bytes, a file handle or a path. *)
Definition is_upload (v : pyval) : bool :=
  match v with PyBytes _ | PyFile _ | PyPath _ => true | _ => false end.

(** [v] is a [FileInput]: a string or an upload. *)
Definition is_file_input (v : pyval) : bool :=
  match v with PyStr _ => true | _ => is_upload v end.

(** What [parse_file_input] accepts, what it then returns given the next
    attachment key, and the next key after the call. *)
Definition accepted (tg_type : option tg_class) (v : pyval) : bool :=
  is_file_input v || from_option (isinstance v) false tg_type.

Definition resolved (v : pyval) (filename : option string) (key : nat) : pyval :=
  match v with
  | PyBytes b => PyInputFile (mkInputFile (FromBytes b) (Some key) filename)
  | PyFile fd => PyInputFile (mkInputFile (FromHandle fd) (Some key) filename)
  | PyPath p => PyInputFile (mkInputFile (FromPath p) (Some key) filename)
  | PyStr s => PyStr s
  | _ => from_option PyStr PyNone (file_id v)
  end.

Definition next_key (v : pyval) (key : nat) : nat :=
  if is_upload v then S key else key.

(** The metadata class that a kind recognizes as [media]. *)
Definition metadata_class (k : kind) : tg_class :=
  match k with
  | KAnimation => ClsAnimation
  | KPhoto => ClsPhotoSize
  | KVideo => ClsVideo
  | KAudio => ClsAudio
  | KDocument => ClsDocument
  end.

(** [media] is a string, a byte payload, a file handle, a path, or the
    metadata object of the kind. *)
Definition media_ok (k : kind) (media : pyval) : bool :=
  is_file_input media || isinstance media (metadata_class k).

(** [thumb] is left out (or falsy), or is a file input; a photo has no
    thumbnail parameter. *)
Definition thumb_ok (k : kind) (thumb : pyval) : bool :=
  match k with
  | KPhoto => true
  | _ => negb (truthy thumb) || is_file_input thumb
  end.

(** The serialized mapping of an entity, as a value. *)
Definition entity_dict (e : MessageEntity) : pyval := PyDict (MessageEntity_to_dict e).

(** The mapping that [to_dict] returns for attributes [d] whose
    [caption_entities] is [py_entities ce]. *)
Definition serialized (d : gmap string pyval) (ce : option (list MessageEntity))
  : gmap string pyval :=
  match ce with
  | Some (e :: l) =>
      <["caption_entities" := PyList (entity_dict <$> e :: l)]> (omap to_dict_value d)
  | _ => omap to_dict_value d
  end.

(** An [InputFile] stored in a record carries its attachment key. *)
Definition well_tagged (v : pyval) : Prop :=
  match v with
  | PyInputFile f => is_Some (input_file_attach f)
  | _ => True
  end.

Definition all_well_tagged (d : gmap string pyval) : Prop :=
  map_Forall (fun _ v => well_tagged v) d.

(** What an integer override leaves in a field whose copied value is
    [copied]: a non-zero argument wins, [0] and an omitted argument leave
    the copied value. *)
Definition override_int (arg : option Z) (copied : Z) : Z :=
  match arg with
  | Some z => if z =? 0 then copied else z
  | None => copied
  end.

(** The same for a string override: a non-empty argument wins. *)
Definition override_str (arg : option string) (copied : option string) : option string :=
  match arg with
  | Some s => if String.eqb s "" then copied else Some s
  | None => copied
  end.

(** The kinds that copy descriptive fields from their metadata object. *)
Definition copies_metadata (k : kind) (media : pyval) : bool :=
  match k with
  | KAnimation | KVideo | KAudio => isinstance media (metadata_class k)
  | KPhoto | KDocument => false
  end.

(** The optional scalar parameters that [__init__] stores under a
    truthiness test ([if x: self.x = x]), with the values passed. *)
Definition guarded (k : kind) (a : arguments) : list (string * pyval) :=
  match k with
  | KAnimation =>
      [("caption", py_str (arg_caption a)); ("width", py_int (arg_width a));
       ("height", py_int (arg_height a)); ("duration", py_int (arg_duration a))]
  | KPhoto => [("caption", py_str (arg_caption a))]
  | KVideo =>
      [("caption", py_str (arg_caption a)); ("width", py_int (arg_width a));
       ("height", py_int (arg_height a)); ("duration", py_int (arg_duration a));
       ("supports_streaming", py_bool (arg_supports_streaming a))]
  | KAudio =>
      [("caption", py_str (arg_caption a)); ("duration", py_int (arg_duration a));
       ("performer", py_str (arg_performer a)); ("title", py_str (arg_title a))]
  | KDocument => [("caption", py_str (arg_caption a))]
  end.

(** The attributes that [__init__] copies from [media] when it is the
    metadata object of an animation, a video or an audio. *)
Definition copied (k : kind) (media : pyval) : gmap string pyval :=
  match k, media with
  | KAnimation, PyAnimation x =>
      <["duration" := PyInt (animation_duration x)]>
        (<["height" := PyInt (animation_height x)]>
           (<["width" := PyInt (animation_width x)]> ∅))
  | KVideo, PyVideo x =>
      <["duration" := PyInt (video_duration x)]>
        (<["height" := PyInt (video_height x)]>
           (<["width" := PyInt (video_width x)]> ∅))
  | KAudio, PyAudio x =>
      <["title" := py_str (audio_title x)]>
        (<["performer" := py_str (audio_performer x)]>
           (<["duration" := PyInt (audio_duration x)]> ∅))
  | _, _ => ∅
  end.

(** The payload of a byte string or of an open file. *)
Definition as_payload (v : pyval) : option payload :=
  match v with
  | PyBytes b => Some (FromBytes b)
  | PyFile fd => Some (FromHandle fd)
  | _ => None
  end.

(** The fields that a call supplies or defaults: [type] and [media]; an
    argument stored under a truthiness test, when it is truthy; what is
    copied from a metadata object; a truthy thumbnail, except for a photo;
    and the arguments stored without a test, when they are passed. *)
Definition supplied_or_defaulted (k : kind) (a : arguments) (n : string) : Prop :=
  n = "type" \/ n = "media"
  \/ (exists v, (n, v) ∈ guarded k a /\ truthy v = true)
  \/ (exists v, copied k (arg_media a) !! n = Some v /\ v <> PyNone)
  \/ (n = "thumb" /\ k <> KPhoto /\ truthy (arg_thumb a) = true)
  \/ (n = "parse_mode" /\ is_Some (arg_parse_mode a))
  \/ (n = "caption_entities" /\ is_Some (arg_caption_entities a))
  \/ (n = "disable_content_type_detection" /\ k = KDocument
      /\ is_Some (arg_disable_content_type_detection a)).

(** ** Vocabulary of the further properties *)

(** The attributes that the [__init__] of a kind assigns on every path. *)
Definition always_assigned (k : kind) : list string :=
  match k with
  | KDocument =>
      ["type"; "media"; "parse_mode"; "caption_entities";
       "disable_content_type_detection"]
  | _ => ["type"; "media"; "parse_mode"; "caption_entities"]
  end.

(** The attributes that the [__init__] of a kind assigns on some path. *)
Definition assignable (k : kind) : list string :=
  match k with
  | KAnimation =>
      ["type"; "media"; "thumb"; "caption"; "parse_mode"; "caption_entities";
       "width"; "height"; "duration"]
  | KPhoto => ["type"; "media"; "caption"; "parse_mode"; "caption_entities"]
  | KVideo =>
      ["type"; "media"; "thumb"; "caption"; "parse_mode"; "caption_entities";
       "width"; "height"; "duration"; "supports_streaming"]
  | KAudio =>
      ["type"; "media"; "thumb"; "caption"; "parse_mode"; "caption_entities";
       "duration"; "performer"; "title"]
  | KDocument =>
      ["type"; "media"; "thumb"; "caption"; "parse_mode"; "caption_entities";
       "disable_content_type_detection"]
  end.

(** The same call with another [filename]. *)
Definition with_filename (filename : option string) (a : arguments) : arguments :=
  mk_arguments (arg_media a) (arg_thumb a) (arg_caption a) (arg_parse_mode a)
    (arg_width a) (arg_height a) (arg_duration a) (arg_supports_streaming a)
    (arg_performer a) (arg_title a) (arg_disable_content_type_detection a)
    (arg_caption_entities a) filename.

(** The attributes of [d] have their names in [names]. *)
Definition names_within (names : list string) (d : gmap string pyval) : Prop :=
  forall n, is_Some (d !! n) -> n ∈ names.

(** ** Sample runs *)

(** A photo built from a file identifier alone, and its serialization. *)
Example photo_from_file_id :
  new KPhoto (only_media (PyStr "file-id")) 0%nat
  = Ok (<["caption_entities" := PyNone]>
          (<["parse_mode" := DEFAULT_NONE]>
             (<["media" := PyStr "file-id"]> (<["type" := PyStr "photo"]> ∅))), 0%nat).
Proof. reflexivity. Qed.

Example photo_from_file_id_to_dict :
  InputMedia_to_dict
    (World 0 (<["caption_entities" := PyNone]>
                (<["parse_mode" := DEFAULT_NONE]>
                   (<["media" := PyStr "file-id"]> (<["type" := PyStr "photo"]> ∅)))))
  = Ok (<["media" := PyStr "file-id"]> (<["type" := PyStr "photo"]> ∅),
        World 0 (<["caption_entities" := PyNone]>
                   (<["parse_mode" := DEFAULT_NONE]>
                      (<["media" := PyStr "file-id"]> (<["type" := PyStr "photo"]> ∅))))).
Proof. vm_compute. reflexivity. Qed.

(** A video uploaded from bytes with a thumbnail from an open file: two
    attachment keys are drawn, and [width=0] is dropped. *)
Example video_upload_with_thumb :
  new KVideo
    {| arg_media := PyBytes [Byte.x00; Byte.x01];
       arg_thumb := PyFile 3; arg_caption := Some "clip"; arg_parse_mode := None;
       arg_width := Some 0; arg_height := Some 480; arg_duration := None;
       arg_supports_streaming := Some true; arg_performer := None; arg_title := None;
       arg_disable_content_type_detection := None;
       arg_caption_entities := None; arg_filename := Some "clip.mp4" |} 10%nat
  = Ok (<["supports_streaming" := PyBool true]>
          (<["height" := PyInt 480]>
             (<["caption_entities" := PyNone]>
                (<["parse_mode" := DEFAULT_NONE]>
                   (<["caption" := PyStr "clip"]>
                      (<["thumb" := PyInputFile (mkInputFile (FromHandle 3) (Some 11%nat) None)]>
                         (<["media" := PyInputFile
                                         (mkInputFile (FromBytes [Byte.x00; Byte.x01])
                                            (Some 10%nat) (Some "clip.mp4"))]>
                            (<["type" := PyStr "video"]> ∅))))))), 12%nat).
Proof. reflexivity. Qed.

(** ** Symbolic execution of the constructors *)

Lemma parse_file_input_run v tg fn w :
  parse_file_input v tg true fn w =
    if accepted tg v
    then Ok (resolved v fn (uuid_next w), World (next_key v (uuid_next w)) (self_dict w))
    else Raise TypeError.
Proof. destruct w, v, tg as [[]|]; reflexivity. Qed.

Section Run.
Context {B : Type}.
Implicit Types (f : unit -> M B) (w : world).

Lemma bind_assoc {A A'} (m : M A) (g : A -> M A') (h : A' -> M B) w :
  bind (bind m g) h w = bind m (fun x => bind (g x) h) w.
Proof. unfold bind. destruct (m w) as [[a w']|e]; reflexivity. Qed.

Lemma bind_setattr name v f w :
  bind (setattr name v) f w
  = f tt (World (uuid_next w) (<[name := v]> (self_dict w))).
Proof. reflexivity. Qed.

Lemma bind_when_setattr name v f w :
  bind (when (truthy v) (setattr name v)) f w
  = f tt (World (uuid_next w) (assign_if name v (self_dict w))).
Proof.
  unfold when, assign_if, bind, setattr, ret.
  destruct w, (truthy v); reflexivity.
Qed.

Lemma bind_parse v tg fn (g : pyval -> M B) w :
  bind (parse_file_input v tg true fn) g w
  = if accepted tg v
    then g (resolved v fn (uuid_next w))
           (World (next_key v (uuid_next w)) (self_dict w))
    else Raise TypeError.
Proof.
  unfold bind. rewrite parse_file_input_run.
  destruct (accepted tg v); reflexivity.
Qed.

Lemma bind_when_parse_setattr name v tg fn f w :
  bind (when (truthy v)
          (bind (parse_file_input v tg true fn) (fun m => setattr name m))) f w
  = if truthy v
    then if accepted tg v
         then f tt (World (next_key v (uuid_next w))
                      (<[name := resolved v fn (uuid_next w)]> (self_dict w)))
         else Raise TypeError
    else f tt w.
Proof.
  unfold when. destruct (truthy v); [|reflexivity].
  rewrite bind_assoc, bind_parse. reflexivity.
Qed.
End Run.

Lemma setattr_run name v w :
  setattr name v w = Ok (tt, World (uuid_next w) (<[name := v]> (self_dict w))).
Proof. reflexivity. Qed.

Lemma when_setattr_run name v w :
  when (truthy v) (setattr name v) w
  = Ok (tt, World (uuid_next w) (assign_if name v (self_dict w))).
Proof.
  unfold when, assign_if, setattr, ret. destruct w, (truthy v); reflexivity.
Qed.

Lemma lookup_assign_if name v (d : gmap string pyval) n :
  assign_if name v d !! n
  = if decide (name = n) then (if truthy v then Some v else d !! n) else d !! n.
Proof.
  unfold assign_if. destruct (truthy v).
  - apply lookup_insert.
  - by case_decide.
Qed.

Ltac exec_step :=
  first [ rewrite bind_assoc
        | rewrite bind_setattr
        | rewrite bind_when_setattr
        | rewrite bind_when_parse_setattr
        | rewrite bind_parse
        | rewrite when_setattr_run
        | rewrite setattr_run ].

Ltac exec := repeat (exec_step; cbv beta; cbn [uuid_next self_dict]).

Lemma lookup_assign_if_eq name v (d : gmap string pyval) :
  assign_if name v d !! name = if truthy v then Some v else d !! name.
Proof. rewrite lookup_assign_if. by case_decide. Qed.

Lemma lookup_assign_if_ne name v (d : gmap string pyval) n :
  name ≠ n -> assign_if name v d !! n = d !! n.
Proof. intros. rewrite lookup_assign_if. by case_decide. Qed.

Ltac lookups :=
  repeat first [ rewrite lookup_insert_eq
               | rewrite lookup_insert_ne by discriminate
               | rewrite lookup_assign_if_eq
               | rewrite lookup_assign_if_ne by discriminate
               | rewrite lookup_empty ].

(** Unfolds a call [new k a key] of a known kind and runs [__init__] up to
    the tests on [media] and [thumb], which are left as case distinctions. *)
Ltac run_new :=
  unfold new, init;
  unfold InputMediaAnimation, InputMediaPhoto, InputMediaVideo,
    InputMediaAudio, InputMediaDocument;
  cbn [arg_media arg_thumb arg_caption arg_parse_mode arg_width arg_height
       arg_duration arg_supports_streaming arg_performer arg_title
       arg_disable_content_type_detection arg_caption_entities arg_filename
       as_animation as_video as_audio];
  try match goal with
    | |- context [as_animation ?m] => destruct (as_animation m) eqn:?
    | |- context [as_video ?m] => destruct (as_video m) eqn:?
    | |- context [as_audio ?m] => destruct (as_audio m) eqn:?
    end;
  exec.

(** The tests on [media] and [thumb] that the run leaves open. *)
Ltac tests :=
  repeat match goal with
    | |- context [if accepted ?tg ?v then _ else _] => destruct (accepted tg v) eqn:?
    | |- context [if truthy ?v then _ else _] => destruct (truthy v) eqn:?
    end;
  cbv beta iota; cbn [uuid_next self_dict].

(** From [new k a key = Ok (self, key')] in the goal to the attributes of
    [self], one case for each way through [__init__]. *)
Ltac inv_new :=
  run_new; tests;
  let H := fresh "Hnew" in
  intros H; try discriminate H; injection H as <- <-.

(** ** Well-typed calls *)

Lemma accepted_None v : accepted None v = is_file_input v.
Proof. unfold accepted. apply orb_false_r. Qed.

Lemma media_ok_animation m :
  media_ok KAnimation m = match as_animation m with Some _ => true | None => accepted None m end.
Proof. destruct m; reflexivity. Qed.

Lemma media_ok_video m :
  media_ok KVideo m = match as_video m with Some _ => true | None => accepted None m end.
Proof. destruct m; reflexivity. Qed.

Lemma media_ok_audio m :
  media_ok KAudio m = match as_audio m with Some _ => true | None => accepted None m end.
Proof. destruct m; reflexivity. Qed.

Ltac media_tests :=
  unfold media_ok, accepted in *; cbn [metadata_class from_option] in *.

Lemma new_ok k a key :
  media_ok k (arg_media a) = true -> thumb_ok k (arg_thumb a) = true ->
  exists self key', new k a key = Ok (self, key').
Proof.
  destruct a as [m t]; cbn [arg_media arg_thumb].
  destruct k; intros Hm Ht;
    rewrite ?media_ok_animation, ?media_ok_video, ?media_ok_audio in Hm;
    unfold thumb_ok in Ht; rewrite <- ?accepted_None in Ht;
    run_new; tests; eauto;
    first [ discriminate Hm | discriminate Ht | media_tests; congruence ].
Qed.

Lemma new_raise k a key :
  media_ok k (arg_media a) = false -> new k a key = Raise TypeError.
Proof.
  destruct a as [m t]; cbn [arg_media arg_thumb].
  destruct k; intros Hm;
    rewrite ?media_ok_animation, ?media_ok_video, ?media_ok_audio in Hm;
    run_new; tests; try reflexivity;
    first [ discriminate Hm | media_tests; congruence ].
Qed.

(** ** Running [to_dict] *)

Lemma for_each_entity_to_dict (l : list MessageEntity) w :
  for_each entity_to_dict (PyMessageEntity <$> l) w = Ok (entity_dict <$> l, w).
Proof.
  induction l as [|e l IH]; [reflexivity|].
  cbn [fmap list_fmap for_each entity_to_dict]. unfold bind at 1 2.
  cbn [ret]. fold (@fmap list _ _ _ PyMessageEntity l). rewrite IH. reflexivity.
Qed.

Lemma InputMedia_to_dict_run key (self : gmap string pyval) ce :
  self !! "caption_entities" = Some (py_entities ce) ->
  InputMedia_to_dict (World key self) = Ok (serialized self ce, World key self).
Proof.
  intros Hce. unfold InputMedia_to_dict, TelegramObject_to_dict.
  unfold bind at 1 2. unfold get_dict, ret. cbn [self_dict].
  unfold bind at 1. unfold getattr. cbn [self_dict]. rewrite Hce.
  destruct ce as [[|e l]|]; try reflexivity.
  change (truthy (py_entities (Some (e :: l)))) with true. cbv iota.
  unfold bind, py_entities, from_option, entities_to_dict.
  rewrite for_each_entity_to_dict. reflexivity.
Qed.

Lemma lookup_serialized (d : gmap string pyval) ce n :
  d !! "caption_entities" = Some (py_entities ce) ->
  serialized d ce !! n
  = if decide (n = "caption_entities")
    then (fun l => PyList (entity_dict <$> l)) <$> ce
    else d !! n ≫= to_dict_value.
Proof.
  intros Hce. case_decide as Hn.
  - subst n. destruct ce as [[|e l]|]; cbn [serialized fmap option_fmap option_map].
    + by rewrite lookup_omap, Hce.
    + by rewrite lookup_insert_eq.
    + by rewrite lookup_omap, Hce.
  - destruct ce as [[|e l]|]; cbn [serialized];
      rewrite ?lookup_insert_ne by done; apply lookup_omap.
Qed.

Lemma lookup_serialized_ne (d : gmap string pyval) ce n :
  d !! "caption_entities" = Some (py_entities ce) ->
  n ≠ "caption_entities" ->
  serialized d ce !! n = d !! n ≫= to_dict_value.
Proof. intros Hce Hn. rewrite lookup_serialized by done. by case_decide. Qed.

(** ** What every constructed record satisfies *)

Lemma resolved_well_tagged v fn key : well_tagged (resolved v fn key).
Proof. destruct v; cbn; eauto. all: by destruct (file_id _). Qed.

Lemma all_well_tagged_insert n v d :
  well_tagged v -> all_well_tagged d -> all_well_tagged (<[n := v]> d).
Proof. intros. by apply map_Forall_insert_2. Qed.

Lemma all_well_tagged_assign_if n v d :
  well_tagged v -> all_well_tagged d -> all_well_tagged (assign_if n v d).
Proof.
  intros. unfold assign_if. destruct (truthy v); [by apply all_well_tagged_insert | done].
Qed.

Lemma well_tagged_py_str o : well_tagged (py_str o).
Proof. by destruct o. Qed.
Lemma well_tagged_py_int o : well_tagged (py_int o).
Proof. by destruct o. Qed.
Lemma well_tagged_py_bool o : well_tagged (py_bool o).
Proof. by destruct o. Qed.
Lemma well_tagged_py_entities o : well_tagged (py_entities o).
Proof. by destruct o. Qed.
Lemma well_tagged_py_parse_mode o : well_tagged (py_parse_mode o).
Proof. by destruct o. Qed.

Ltac tagged :=
  repeat first [ apply all_well_tagged_insert | apply all_well_tagged_assign_if ];
  first [ apply map_Forall_empty
        | apply resolved_well_tagged
        | apply well_tagged_py_str | apply well_tagged_py_int
        | apply well_tagged_py_bool | apply well_tagged_py_entities
        | apply well_tagged_py_parse_mode
        | exact I ].

Lemma new_invariant k a key self key' :
  new k a key = Ok (self, key') ->
  self !! "type" = Some (PyStr (type_name k))
  /\ self !! "caption_entities" = Some (py_entities (arg_caption_entities a))
  /\ all_well_tagged self.
Proof.
  destruct a, k; inv_new; (split; [|split]); try (lookups; reflexivity); tagged.
Qed.

(** ** Metadata copied from a known object, and its overrides *)

Lemma assign_int_over arg copied :
  (if truthy (py_int arg) then Some (py_int arg) else Some (PyInt copied))
  = Some (PyInt (override_int arg copied)).
Proof. destruct arg as [z|]; cbn; [destruct (z =? 0)|]; reflexivity. Qed.

Lemma assign_str_over arg copied :
  (if truthy (py_str arg) then Some (py_str arg) else Some (py_str copied))
  = Some (py_str (override_str arg copied)).
Proof. destruct arg as [s|]; cbn; [destruct (String.eqb s "")|]; reflexivity. Qed.

(** Runs a well-typed call: names the record and turns the goal into one
    about its attributes. *)
Ltac total Hm Ht :=
  let self := fresh "self" in
  let key' := fresh "key'" in
  let Hnew := fresh "Hnew" in
  match goal with
  | |- context [new ?k ?a ?key] =>
      destruct (new_ok k a key Hm Ht) as (self & key' & Hnew)
  end;
  exists self, key'; split; [exact Hnew|];
  revert Hnew.

(** C1, as stated, fails: an [InputMediaAnimation] built from an
    [Animation] of width 640 with the explicit override [width=0] has width
    640, not the supplied 0. *)
Lemma zero_width_override_is_not_taken :
  exists self key',
    new KAnimation
      {| arg_media := PyAnimation (mkAnimation "file-id" 640 480 7);
         arg_thumb := PyNone; arg_caption := None; arg_parse_mode := None;
         arg_width := Some 0; arg_height := None; arg_duration := None;
         arg_supports_streaming := None; arg_performer := None; arg_title := None;
         arg_disable_content_type_detection := None;
         arg_caption_entities := None; arg_filename := None |} 0%nat
    = Ok (self, key')
    /\ self !! "width" = Some (PyInt 640)
    /\ self !! "width" <> Some (PyInt 0).
Proof.
  run_new; tests; try discriminate.
  eexists _, _. split; [reflexivity|]. lookups. split; [reflexivity | discriminate].
Qed.

(** C1 (amended): when [InputMediaAnimation] or [InputMediaVideo] is built
    from an [Animation] or [Video] object, and [InputMediaAudio] from an
    [Audio] object, the record's width, height and duration (resp.
    duration, performer and title) are the object's values where no
    override is supplied, and the override where a truthy one (a non-zero
    integer, a non-empty string) is supplied; an override of [0] or of the
    empty string leaves the copied value. *)
Theorem metadata_copied_unless_overridden (a : arguments) (key : nat) :
  (forall x, arg_media a = PyAnimation x -> thumb_ok KAnimation (arg_thumb a) = true ->
     exists self key', new KAnimation a key = Ok (self, key')
       /\ self !! "width" = Some (PyInt (override_int (arg_width a) (animation_width x)))
       /\ self !! "height" = Some (PyInt (override_int (arg_height a) (animation_height x)))
       /\ self !! "duration"
          = Some (PyInt (override_int (arg_duration a) (animation_duration x))))
  /\ (forall x, arg_media a = PyVideo x -> thumb_ok KVideo (arg_thumb a) = true ->
     exists self key', new KVideo a key = Ok (self, key')
       /\ self !! "width" = Some (PyInt (override_int (arg_width a) (video_width x)))
       /\ self !! "height" = Some (PyInt (override_int (arg_height a) (video_height x)))
       /\ self !! "duration"
          = Some (PyInt (override_int (arg_duration a) (video_duration x))))
  /\ (forall x, arg_media a = PyAudio x -> thumb_ok KAudio (arg_thumb a) = true ->
     exists self key', new KAudio a key = Ok (self, key')
       /\ self !! "duration"
          = Some (PyInt (override_int (arg_duration a) (audio_duration x)))
       /\ self !! "performer"
          = Some (py_str (override_str (arg_performer a) (audio_performer x)))
       /\ self !! "title"
          = Some (py_str (override_str (arg_title a) (audio_title x)))).
Proof.
  destruct a; cbn [arg_media arg_thumb arg_width arg_height arg_duration
                   arg_performer arg_title].
  repeat split; intros x -> Ht.
  all: total (eq_refl true) Ht; inv_new;
       lookups; rewrite ?assign_int_over, ?assign_str_over; done.
Qed.

(** A video built from a [Video] of 640 by 480 and 7 seconds, with
    [width=320] and [duration=0]. *)
Lemma metadata_copied_unless_overridden_witness :
  exists self key',
    new KVideo
      {| arg_media := PyVideo (mkVideo "file-id" 640 480 7);
         arg_thumb := PyNone; arg_caption := None; arg_parse_mode := None;
         arg_width := Some 320; arg_height := None; arg_duration := Some 0;
         arg_supports_streaming := None; arg_performer := None; arg_title := None;
         arg_disable_content_type_detection := None;
         arg_caption_entities := None; arg_filename := None |} 0%nat
    = Ok (self, key')
    /\ self !! "width" = Some (PyInt 320)
    /\ self !! "height" = Some (PyInt 480)
    /\ self !! "duration" = Some (PyInt 7).
Proof.
  pose proof (metadata_copied_unless_overridden
    {| arg_media := PyVideo (mkVideo "file-id" 640 480 7);
       arg_thumb := PyNone; arg_caption := None; arg_parse_mode := None;
       arg_width := Some 320; arg_height := None; arg_duration := Some 0;
       arg_supports_streaming := None; arg_performer := None; arg_title := None;
       arg_disable_content_type_detection := None;
       arg_caption_entities := None; arg_filename := None |} 0%nat) as (_ & H & _).
  exact (H _ eq_refl eq_refl).
Defined.

(** ** The keys of the serialized mapping *)

Lemma to_dict_value_None v :
  well_tagged v -> to_dict_value v = None <-> v = PyNone \/ v = DEFAULT_NONE.
Proof.
  destruct v; cbn; try (intuition congruence).
  intros [key ->]. cbn. intuition congruence.
Qed.

Lemma to_dict_value_not_null v : to_dict_value v <> Some PyNone.
Proof.
  destruct v; cbn; try discriminate.
  destruct (input_file_attach f); discriminate.
Qed.

Lemma serialized_keys (self : gmap string pyval) ce n :
  self !! "caption_entities" = Some (py_entities ce) ->
  all_well_tagged self ->
  is_Some (serialized self ce !! n)
  <-> exists v, self !! n = Some v /\ v <> PyNone /\ v <> DEFAULT_NONE.
Proof.
  intros Hce Hwf. rewrite lookup_serialized by done. case_decide as Hn.
  - subst n. rewrite Hce. destruct ce as [l|]; cbn.
    + split; [intros _; eexists; split; [done|]; split; discriminate | eauto].
    + split; [by intros [? ?] | intros (v & [= <-] & ? & _); done].
  - destruct (self !! n) as [v|] eqn:Hv; cbn.
    + pose proof (to_dict_value_None v (Hwf _ _ Hv)) as Hnone.
      split.
      * intros [y Hy]. exists v. split; [done|].
        split; intros ->; discriminate Hy.
      * intros (v' & [= <-] & H1 & H2).
        destruct (to_dict_value v); [eauto|]. tauto.
    + split; [by intros [? ?] | intros (? & ? & _); done].
Qed.

Lemma serialized_not_null (self : gmap string pyval) ce n :
  self !! "caption_entities" = Some (py_entities ce) ->
  serialized self ce !! n <> Some PyNone.
Proof.
  intros Hce. rewrite lookup_serialized by done. case_decide.
  - by destruct ce.
  - destruct (self !! n) as [v|]; cbn; [apply to_dict_value_not_null | done].
Qed.

Lemma resolved_set k m fn key :
  media_ok k m = true -> copies_metadata k m = false ->
  is_Some (to_dict_value (resolved m fn key)).
Proof. destruct k, m; cbn; try discriminate; eauto. Qed.

Lemma only_media_keys k media key self key' :
  copies_metadata k media = false ->
  new k (only_media media) key = Ok (self, key') ->
  serialized self None !! "type" = Some (PyStr (type_name k))
  /\ is_Some (serialized self None !! "media")
  /\ dom (serialized self None) = {[ "type"; "media" ]}.
Proof.
  intros Hc Hnew.
  assert (Hm : media_ok k media = true).
  { destruct (media_ok k media) eqn:E; [done|].
    rewrite (new_raise k (only_media media) key E) in Hnew. discriminate. }
  pose proof (new_invariant _ _ _ _ _ Hnew) as (_ & Hce & _).
  cbn [only_media arg_caption_entities] in Hce.
  assert (Hmedia : exists v, self !! "media" = Some v /\ is_Some (to_dict_value v)
            /\ forall n, is_Some (self !! n ≫= to_dict_value) -> n = "type" \/ n = "media").
  { revert Hnew. unfold only_media.
    destruct k; inv_new; try discriminate;
      try (exfalso; destruct media; discriminate);
      (eexists; split; [lookups; reflexivity|]; split;
       [ eapply resolved_set; done
       | intros n; unfold assign_if; cbn [truthy py_str py_int py_bool from_option];
         rewrite !lookup_insert, lookup_empty; repeat case_decide; subst; cbn;
         intros [? ?]; try discriminate; auto ]). }
  destruct Hmedia as (v & Hv & Hsome & Hkeys).
  pose proof (new_invariant _ _ _ _ _ Hnew) as (Hty & _ & _).
  assert (H1 : serialized self None !! "type" = Some (PyStr (type_name k))).
  { rewrite lookup_serialized_ne by done. by rewrite Hty. }
  assert (H2 : is_Some (serialized self None !! "media")).
  { rewrite lookup_serialized_ne by done. by rewrite Hv. }
  split; [done|]. split; [done|].
  apply set_eq; intros n. rewrite elem_of_dom. split.
  - cbn [serialized]. rewrite lookup_omap. intros Hn.
    destruct (Hkeys n Hn) as [-> | ->]; set_solver.
  - intros Hn. apply elem_of_union in Hn as [Hn|Hn]; apply elem_of_singleton in Hn; subst.
    + by rewrite H1.
    + done.
Qed.

(** C2, as stated, fails: an [InputMediaAnimation] built with only a media
    argument, an [Animation] object, serializes with the copied [width]
    (and height and duration) next to [type] and [media]; and a caption
    that is supplied as the empty string is not among the keys of the
    mapping. *)
Lemma only_media_object_has_more_keys :
  (exists self key' data,
     new KAnimation (only_media (PyAnimation (mkAnimation "file-id" 640 480 7))) 0%nat
     = Ok (self, key')
     /\ InputMedia_to_dict (World key' self) = Ok (data, World key' self)
     /\ data !! "width" = Some (PyInt 640)
     /\ dom data <> {[ "type"; "media" ]})
  /\ (exists self key' data,
        new KPhoto
          {| arg_media := PyStr "file-id";
             arg_thumb := PyNone; arg_caption := Some ""; arg_parse_mode := None;
             arg_width := None; arg_height := None; arg_duration := None;
             arg_supports_streaming := None; arg_performer := None;
             arg_title := None; arg_disable_content_type_detection := None;
             arg_caption_entities := None; arg_filename := None |} 0%nat
        = Ok (self, key')
        /\ InputMedia_to_dict (World key' self) = Ok (data, World key' self)
        /\ data !! "caption" = None).
Proof.
  split.
  - destruct (new_ok KAnimation
                (only_media (PyAnimation (mkAnimation "file-id" 640 480 7)))
                0%nat eq_refl eq_refl) as (self & key' & Hnew).
    pose proof (new_invariant _ _ _ _ _ Hnew) as (_ & Hce & _).
    exists self, key', (serialized self None).
    split; [done|]. split; [by apply InputMedia_to_dict_run|].
    assert (Hw : serialized self None !! "width" = Some (PyInt 640)).
    { rewrite lookup_serialized_ne by done. clear Hce. revert Hnew.
      unfold only_media. inv_new; try discriminate. lookups. reflexivity. }
    split; [done|].
    intros Hdom.
    assert (Hin : "width" ∈ dom (serialized self None)) by (apply elem_of_dom; eauto).
    rewrite Hdom in Hin.
    apply elem_of_union in Hin as [Hin|Hin]; apply elem_of_singleton in Hin; discriminate.
  - match goal with
    | |- context [new KPhoto ?a 0%nat] =>
        destruct (new_ok KPhoto a 0%nat eq_refl eq_refl) as (self & key' & Hnew)
    end.
    pose proof (new_invariant _ _ _ _ _ Hnew) as (_ & Hce & _).
    exists self, key', (serialized self None).
    split; [done|]. split; [by apply InputMedia_to_dict_run|].
    rewrite lookup_serialized_ne by done. clear Hce. revert Hnew.
    inv_new; try discriminate. lookups. reflexivity.
Qed.

(** ** Falsy optional arguments *)

Lemma as_animation_Some m x : as_animation m = Some x -> m = PyAnimation x.
Proof. destruct m; cbn; congruence. Qed.

Lemma as_video_Some m x : as_video m = Some x -> m = PyVideo x.
Proof. destruct m; cbn; congruence. Qed.

Lemma as_audio_Some m x : as_audio m = Some x -> m = PyAudio x.
Proof. destruct m; cbn; congruence. Qed.

Lemma copied_animation_None m : as_animation m = None -> copied KAnimation m = ∅.
Proof. by destruct m. Qed.

Lemma copied_video_None m : as_video m = None -> copied KVideo m = ∅.
Proof. by destruct m. Qed.

Lemma copied_audio_None m : as_audio m = None -> copied KAudio m = ∅.
Proof. by destruct m. Qed.

Lemma copied_empty k m : copies_metadata k m = false -> copied k m = ∅.
Proof. by destruct k, m. Qed.

(** Replaces [media] by the metadata object that [isinstance] found, or
    empties what is copied from it. *)
Ltac media_cases :=
  repeat match goal with
    | H : as_animation _ = Some _ |- _ => apply as_animation_Some in H; subst
    | H : as_video _ = Some _ |- _ => apply as_video_Some in H; subst
    | H : as_audio _ = Some _ |- _ => apply as_audio_Some in H; subst
    | H : as_animation _ = None |- _ => rewrite (copied_animation_None _ H)
    | H : as_video _ = None |- _ => rewrite (copied_video_None _ H)
    | H : as_audio _ = None |- _ => rewrite (copied_audio_None _ H)
    end;
  cbn [copied].

Lemma guarded_falsy_lookup k a key self key' n v :
  new k a key = Ok (self, key') ->
  (n, v) ∈ guarded k a -> truthy v = false ->
  n <> "caption_entities" /\ self !! n = copied k (arg_media a) !! n.
Proof.
  intros Hnew Hin Hv. revert Hnew.
  destruct a, k; cbn [guarded arg_media arg_caption arg_width arg_height arg_duration
                      arg_supports_streaming arg_performer arg_title] in *;
    repeat (apply elem_of_cons in Hin as [[= -> ->]|Hin]);
    try (by apply elem_of_nil in Hin);
    inv_new; (split; [discriminate|]); media_cases; lookups; rewrite ?Hv; reflexivity.
Qed.

Lemma unguarded_lookup k a key self key' :
  new k a key = Ok (self, key') ->
  self !! "parse_mode" = Some (py_parse_mode (arg_parse_mode a))
  /\ (k = KDocument ->
      self !! "disable_content_type_detection"
      = Some (py_bool (arg_disable_content_type_detection a))).
Proof.
  destruct a, k; inv_new; (split; [lookups; reflexivity|]);
    intros [=]; lookups; reflexivity.
Qed.

(** C3, as stated, fails: [disable_content_type_detection] is an optional
    scalar argument of [InputMediaDocument], and the falsy value [False]
    is not treated as absent: the record stores [False] and serializes
    it, whereas the record built without the argument stores [None] and
    omits the key. *)
Lemma false_detection_flag_is_stored :
  exists self key' data self0 key0 data0,
    new KDocument
      {| arg_media := PyStr "file-id";
         arg_thumb := PyNone; arg_caption := None; arg_parse_mode := None;
         arg_width := None; arg_height := None; arg_duration := None;
         arg_supports_streaming := None; arg_performer := None; arg_title := None;
         arg_disable_content_type_detection := Some false;
         arg_caption_entities := None; arg_filename := None |} 0%nat
    = Ok (self, key')
    /\ InputMedia_to_dict (World key' self) = Ok (data, World key' self)
    /\ self !! "disable_content_type_detection" = Some (PyBool false)
    /\ data !! "disable_content_type_detection" = Some (PyBool false)
    /\ new KDocument (only_media (PyStr "file-id")) 0%nat = Ok (self0, key0)
    /\ InputMedia_to_dict (World key0 self0) = Ok (data0, World key0 self0)
    /\ self0 !! "disable_content_type_detection" = Some PyNone
    /\ data0 !! "disable_content_type_detection" = None.
Proof.
  match goal with
  | |- context [new KDocument ?a 0%nat = Ok (_, _) /\ _] =>
      destruct (new_ok KDocument a 0%nat eq_refl eq_refl) as (self & key' & Hnew)
  end.
  destruct (new_ok KDocument (only_media (PyStr "file-id")) 0%nat eq_refl eq_refl)
    as (self0 & key0 & Hnew0).
  pose proof (new_invariant _ _ _ _ _ Hnew) as (_ & Hce & _).
  pose proof (new_invariant _ _ _ _ _ Hnew0) as (_ & Hce0 & _).
  pose proof (proj2 (unguarded_lookup _ _ _ _ _ Hnew) eq_refl) as Hd.
  pose proof (proj2 (unguarded_lookup _ _ _ _ _ Hnew0) eq_refl) as Hd0.
  exists self, key', (serialized self None), self0, key0, (serialized self0 None).
  split; [done|]. split; [by apply InputMedia_to_dict_run|].
  split; [done|].
  split; [rewrite lookup_serialized_ne by done; by rewrite Hd|].
  split; [done|]. split; [by apply InputMedia_to_dict_run|].
  split; [done|].
  rewrite lookup_serialized_ne by done. by rewrite Hd0.
Qed.

(** C3 (amended): for each of the five constructors, an optional scalar
    argument that [__init__] stores under a truthiness test (caption,
    width, height, duration, performer, title, supports_streaming) and
    that is falsy is treated as absent: next to a metadata object it
    leaves the copied value in place; with any other media the attribute
    stays unset and is omitted from the serialized mapping.  [parse_mode]
    and [disable_content_type_detection] have no such test and are stored
    as passed. *)
Theorem falsy_guarded_argument_is_absent k a key n v :
  media_ok k (arg_media a) = true -> thumb_ok k (arg_thumb a) = true ->
  (n, v) ∈ guarded k a -> truthy v = false ->
  exists self key' data,
    new k a key = Ok (self, key')
    /\ (forall key2, InputMedia_to_dict (World key2 self) = Ok (data, World key2 self))
    /\ self !! n = copied k (arg_media a) !! n
    /\ data !! n = copied k (arg_media a) !! n ≫= to_dict_value
    /\ (copies_metadata k (arg_media a) = false -> self !! n = None /\ data !! n = None)
    /\ self !! "parse_mode" = Some (py_parse_mode (arg_parse_mode a))
    /\ (k = KDocument ->
        self !! "disable_content_type_detection"
        = Some (py_bool (arg_disable_content_type_detection a))).
Proof.
  intros Hm Ht Hin Hv.
  destruct (new_ok k a key Hm Ht) as (self & key' & Hnew).
  pose proof (new_invariant _ _ _ _ _ Hnew) as (_ & Hce & _).
  pose proof (guarded_falsy_lookup _ _ _ _ _ _ _ Hnew Hin Hv) as (Hn & Hself).
  pose proof (unguarded_lookup _ _ _ _ _ Hnew) as (Hpm & Hdoc).
  exists self, key', (serialized self (arg_caption_entities a)).
  split; [done|]. split; [intros; by apply InputMedia_to_dict_run|].
  rewrite lookup_serialized_ne by done. rewrite Hself.
  split; [done|]. split; [done|]. split; [|done].
  intros Hc. rewrite (copied_empty _ _ Hc). by rewrite lookup_empty.
Qed.

(** A video built from a file identifier with [width=0]. *)
Lemma falsy_guarded_argument_is_absent_witness :
  exists self key' data,
    new KVideo
      {| arg_media := PyStr "file-id";
         arg_thumb := PyNone; arg_caption := Some ""; arg_parse_mode := None;
         arg_width := Some 0; arg_height := None; arg_duration := None;
         arg_supports_streaming := Some false; arg_performer := None;
         arg_title := None; arg_disable_content_type_detection := None;
         arg_caption_entities := None; arg_filename := None |} 0%nat
    = Ok (self, key')
    /\ (forall key2, InputMedia_to_dict (World key2 self) = Ok (data, World key2 self))
    /\ self !! "width" = None
    /\ data !! "width" = None.
Proof.
  match goal with
  | |- context [new KVideo ?a 0%nat] =>
      destruct (falsy_guarded_argument_is_absent KVideo a 0%nat "width" (PyInt 0)
                  eq_refl eq_refl)
        as (self & key' & data & Hnew & Hd & _ & _ & Habs & _)
  end.
  - cbn [guarded arg_width py_int from_option].
    apply elem_of_cons. right. apply elem_of_cons. left. reflexivity.
  - reflexivity.
  - exists self, key', data. destruct (Habs eq_refl) as [H1 H2]. auto.
Defined.

(** ** Caption entities *)

(** C4: for every record whose [caption_entities] field is a non-empty
    list of entities, [to_dict] maps [caption_entities] to the list of the
    entities' own mappings, of the same length and in the same order; and a
    record of any of the five kinds built with such a list holds it in that
    field. *)
Theorem caption_entities_serialize_in_order :
  (forall (self : gmap string pyval) (l : list MessageEntity),
     self !! "caption_entities" = Some (PyList (PyMessageEntity <$> l)) ->
     l <> [] ->
     exists data out,
       (forall key, InputMedia_to_dict (World key self) = Ok (data, World key self))
       /\ data !! "caption_entities" = Some (PyList out)
       /\ length out = length l
       /\ forall i e, l !! i = Some e -> out !! i = Some (PyDict (MessageEntity_to_dict e)))
  /\ (forall k a key self key' l,
        new k a key = Ok (self, key') ->
        arg_caption_entities a = Some l ->
        self !! "caption_entities" = Some (PyList (PyMessageEntity <$> l))).
Proof.
  split.
  - intros self l Hce Hl.
    exists (serialized self (Some l)), (entity_dict <$> l).
    split; [intros; by apply InputMedia_to_dict_run|].
    split; [|split].
    + destruct l as [|e l]; [done|]. cbn [serialized]. apply lookup_insert_eq.
    + apply length_fmap.
    + intros i e Hi. rewrite list_lookup_fmap, Hi. reflexivity.
  - intros k a key self key' l Hnew Hl.
    pose proof (new_invariant _ _ _ _ _ Hnew) as (_ & Hce & _).
    by rewrite Hl in Hce.
Qed.

(** A photo record with two caption entities. *)
Lemma caption_entities_serialize_in_order_witness :
  exists data out,
    (forall key,
       InputMedia_to_dict
         (World key (<["caption_entities" :=
                        PyList [PyMessageEntity (mkMessageEntity "bold" 0 4);
                                PyMessageEntity (mkMessageEntity "italic" 5 2)]]>
                       (<["media" := PyStr "file-id"]> (<["type" := PyStr "photo"]> ∅))))
       = Ok (data, World key (<["caption_entities" :=
                        PyList [PyMessageEntity (mkMessageEntity "bold" 0 4);
                                PyMessageEntity (mkMessageEntity "italic" 5 2)]]>
                       (<["media" := PyStr "file-id"]> (<["type" := PyStr "photo"]> ∅)))))
    /\ data !! "caption_entities" = Some (PyList out)
    /\ length out = 2%nat
    /\ out !! 1%nat = Some (PyDict (MessageEntity_to_dict (mkMessageEntity "italic" 5 2))).
Proof.
  destruct (proj1 caption_entities_serialize_in_order
              (<["caption_entities" :=
                   PyList [PyMessageEntity (mkMessageEntity "bold" 0 4);
                           PyMessageEntity (mkMessageEntity "italic" 5 2)]]>
                 (<["media" := PyStr "file-id"]> (<["type" := PyStr "photo"]> ∅)))
              [mkMessageEntity "bold" 0 4; mkMessageEntity "italic" 5 2])
    as (data & out & Hd & Hce & Hlen & Hnth).
  - apply lookup_insert_eq.
  - discriminate.
  - exists data, out. split; [exact Hd|]. split; [exact Hce|]. split; [exact Hlen|].
    apply (Hnth 1%nat). reflexivity.
Defined.

(** ** The media reference *)

Lemma media_lookup k a key self key' :
  new k a key = Ok (self, key') ->
  copies_metadata k (arg_media a) = false ->
  self !! "media" = Some (resolved (arg_media a) (arg_filename a) key).
Proof.
  destruct a as [m]; destruct k; cbn [arg_media arg_filename]; inv_new; intros Hc;
    try (exfalso; destruct m; discriminate); lookups; reflexivity.
Qed.

(** C5: a string passed as [media] to any of the five constructors, a
    remote file identifier or a URL, is the record's [media] field and the
    [media] entry of the serialized mapping, unchanged. *)
Theorem string_media_is_kept k a key s :
  arg_media a = PyStr s -> thumb_ok k (arg_thumb a) = true ->
  exists self key' data,
    new k a key = Ok (self, key')
    /\ (forall key2, InputMedia_to_dict (World key2 self) = Ok (data, World key2 self))
    /\ self !! "media" = Some (PyStr s)
    /\ data !! "media" = Some (PyStr s).
Proof.
  intros Hs Ht.
  assert (Hm : media_ok k (arg_media a) = true) by (rewrite Hs; by destruct k).
  assert (Hc : copies_metadata k (arg_media a) = false) by (rewrite Hs; by destruct k).
  destruct (new_ok k a key Hm Ht) as (self & key' & Hnew).
  pose proof (new_invariant _ _ _ _ _ Hnew) as (_ & Hce & _).
  pose proof (media_lookup _ _ _ _ _ Hnew Hc) as Hmedia. rewrite Hs in Hmedia.
  exists self, key', (serialized self (arg_caption_entities a)).
  split; [done|]. split; [intros; by apply InputMedia_to_dict_run|].
  split; [done|]. rewrite lookup_serialized_ne by done. by rewrite Hmedia.
Qed.

(** An audio built from a URL. *)
Lemma string_media_is_kept_witness :
  exists self key' data,
    new KAudio (only_media (PyStr "https://example.org/a.mp3")) 3%nat = Ok (self, key')
    /\ (forall key2, InputMedia_to_dict (World key2 self) = Ok (data, World key2 self))
    /\ self !! "media" = Some (PyStr "https://example.org/a.mp3")
    /\ data !! "media" = Some (PyStr "https://example.org/a.mp3").
Proof.
  apply (string_media_is_kept KAudio (only_media (PyStr "https://example.org/a.mp3")) 3%nat
           "https://example.org/a.mp3"); reflexivity.
Defined.

(** C6: a byte payload or a file handle passed as [media] to any of the
    five constructors makes the record's [media] field an [InputFile]
    tagged with a fresh attachment key, which is no plain string, and the
    serialized mapping refers to the attachment key: the raw bytes are not
    its [media] value. *)
Theorem upload_media_is_attached k a key p :
  as_payload (arg_media a) = Some p -> thumb_ok k (arg_thumb a) = true ->
  exists self key' data,
    new k a key = Ok (self, key')
    /\ (forall key2, InputMedia_to_dict (World key2 self) = Ok (data, World key2 self))
    /\ self !! "media" = Some (PyInputFile (mkInputFile p (Some key) (arg_filename a)))
    /\ (forall s, self !! "media" <> Some (PyStr s))
    /\ data !! "media" = Some (PyAttach key)
    /\ (forall b, data !! "media" <> Some (PyBytes b)).
Proof.
  intros Hp Ht.
  assert (Hm : media_ok k (arg_media a) = true)
    by (destruct (arg_media a); try discriminate Hp; by destruct k).
  assert (Hc : copies_metadata k (arg_media a) = false)
    by (destruct (arg_media a); try discriminate Hp; by destruct k).
  destruct (new_ok k a key Hm Ht) as (self & key' & Hnew).
  pose proof (new_invariant _ _ _ _ _ Hnew) as (_ & Hce & _).
  pose proof (media_lookup _ _ _ _ _ Hnew Hc) as Hmedia.
  assert (Hr : resolved (arg_media a) (arg_filename a) key
               = PyInputFile (mkInputFile p (Some key) (arg_filename a))).
  { destruct (arg_media a); try discriminate Hp; by injection Hp as <-. }
  rewrite Hr in Hmedia.
  exists self, key', (serialized self (arg_caption_entities a)).
  split; [done|]. split; [intros; by apply InputMedia_to_dict_run|].
  rewrite lookup_serialized_ne by done. rewrite Hmedia.
  repeat split; try done.
Qed.

(** A document built from four bytes, with 5 as the next attachment key. *)
Lemma upload_media_is_attached_witness :
  exists self key' data,
    new KDocument (only_media (PyBytes [Byte.x25; Byte.x50; Byte.x44; Byte.x46])) 5%nat
    = Ok (self, key')
    /\ (forall key2, InputMedia_to_dict (World key2 self) = Ok (data, World key2 self))
    /\ self !! "media"
       = Some (PyInputFile
                 (mkInputFile (FromBytes [Byte.x25; Byte.x50; Byte.x44; Byte.x46])
                    (Some 5%nat) None))
    /\ (forall s, self !! "media" <> Some (PyStr s))
    /\ data !! "media" = Some (PyAttach 5)
    /\ (forall b, data !! "media" <> Some (PyBytes b)).
Proof.
  apply (upload_media_is_attached KDocument
           (only_media (PyBytes [Byte.x25; Byte.x50; Byte.x44; Byte.x46])) 5%nat);
    reflexivity.
Defined.

(** ** The discriminant *)

(** C7: every constructed record serializes to a mapping whose [type] key
    holds the discriminant of its kind: "animation", "photo", "video",
    "audio" or "document", whatever the other arguments are. *)
Theorem type_is_the_kind_discriminant k a key self key' :
  new k a key = Ok (self, key') ->
  exists data,
    (forall key2, InputMedia_to_dict (World key2 self) = Ok (data, World key2 self))
    /\ data !! "type" = Some (PyStr (type_name k))
    /\ type_name k = match k with
                     | KAnimation => "animation"
                     | KPhoto => "photo"
                     | KVideo => "video"
                     | KAudio => "audio"
                     | KDocument => "document"
                     end.
Proof.
  intros Hnew.
  pose proof (new_invariant _ _ _ _ _ Hnew) as (Hty & Hce & _).
  exists (serialized self (arg_caption_entities a)).
  split; [intros; by apply InputMedia_to_dict_run|].
  split; [|by destruct k].
  rewrite lookup_serialized_ne by done. by rewrite Hty.
Qed.

(** The record of a photo built from a file identifier alone. *)
Lemma type_is_the_kind_discriminant_witness :
  exists data,
    (forall key2,
       InputMedia_to_dict
         (World key2 (<["caption_entities" := PyNone]>
                        (<["parse_mode" := DEFAULT_NONE]>
                           (<["media" := PyStr "file-id"]>
                              (<["type" := PyStr "photo"]> ∅)))))
       = Ok (data, World key2 (<["caption_entities" := PyNone]>
                                 (<["parse_mode" := DEFAULT_NONE]>
                                    (<["media" := PyStr "file-id"]>
                                       (<["type" := PyStr "photo"]> ∅))))))
    /\ data !! "type" = Some (PyStr "photo").
Proof.
  destruct (type_is_the_kind_discriminant KPhoto (only_media (PyStr "file-id")) 0%nat
              (<["caption_entities" := PyNone]>
                 (<["parse_mode" := DEFAULT_NONE]>
                    (<["media" := PyStr "file-id"]> (<["type" := PyStr "photo"]> ∅))))
              0%nat eq_refl)
    as (data & Hd & Hty & _).
  exists data. split; [exact Hd | exact Hty].
Defined.

(** ** Failure and success of construction *)

(** C8: a media argument that is neither a string, nor a byte payload,
    file handle or path, nor the metadata object that the kind recognizes
    makes construction raise a type error, and no record is returned; with
    a well-typed media (and a thumbnail that is left out or is a file
    input) construction returns a record. *)
Theorem construction_fails_exactly_on_mistyped_media k a key :
  (media_ok k (arg_media a) = false -> new k a key = Raise TypeError)
  /\ (media_ok k (arg_media a) = true -> thumb_ok k (arg_thumb a) = true ->
      exists self key', new k a key = Ok (self, key')).
Proof. split; [apply new_raise | apply new_ok]. Qed.

(** An animation refuses an integer and a [Video]; a document accepts a
    [Document]. *)
Lemma construction_fails_exactly_on_mistyped_media_witness :
  new KAnimation (only_media (PyInt 5)) 0%nat = Raise TypeError
  /\ new KAnimation (only_media (PyVideo (mkVideo "file-id" 640 480 7))) 0%nat
     = Raise TypeError
  /\ exists self key',
       new KDocument (only_media (PyDocument (mkDocument "file-id"))) 0%nat
       = Ok (self, key').
Proof.
  split; [|split].
  - apply (proj1 (construction_fails_exactly_on_mistyped_media
                    KAnimation (only_media (PyInt 5)) 0%nat)). reflexivity.
  - apply (proj1 (construction_fails_exactly_on_mistyped_media
                    KAnimation (only_media (PyVideo (mkVideo "file-id" 640 480 7)))
                    0%nat)). reflexivity.
  - apply (proj2 (construction_fails_exactly_on_mistyped_media
                    KDocument (only_media (PyDocument (mkDocument "file-id"))) 0%nat));
      reflexivity.
Defined.

(** ** Serialization has no effect on the record *)

Lemma for_each_entity_frame l w ys w' :
  for_each entity_to_dict l w = Ok (ys, w') -> w' = w.
Proof.
  revert ys w'. induction l as [|x l IH]; intros ys w'; cbn [for_each].
  - unfold ret. congruence.
  - unfold bind at 1.
    destruct x; cbn [entity_to_dict]; unfold raise, ret; try discriminate.
    unfold bind.
    destruct (for_each entity_to_dict l w) as [[zs w2]|] eqn:E; [|discriminate].
    intros [= _ <-]. by eapply IH.
Qed.

Lemma entities_to_dict_frame v w ys w' :
  entities_to_dict v w = Ok (ys, w') -> w' = w.
Proof.
  destruct v; cbn [entities_to_dict]; unfold raise, ret; try discriminate.
  - destruct (String.eqb s ""); [congruence | discriminate].
  - destruct b; [congruence | discriminate].
  - apply for_each_entity_frame.
  - destruct (map_to_list d); [congruence | discriminate].
Qed.

Lemma InputMedia_to_dict_frame w data w' :
  InputMedia_to_dict w = Ok (data, w') -> w' = w.
Proof.
  unfold InputMedia_to_dict, TelegramObject_to_dict.
  unfold bind at 1 2. unfold get_dict, ret.
  unfold bind at 1. unfold getattr.
  destruct (self_dict w !! "caption_entities") as [v|].
  - destruct (truthy v); [|congruence].
    unfold bind. destruct (entities_to_dict v w) as [[l w1]|e] eqn:E; [|discriminate].
    intros [= _ <-]. by eapply entities_to_dict_frame.
  - cbn. congruence.
Qed.

(** C9: [to_dict] has no side effect: on every constructed record of any
    of the five kinds it returns its mapping and leaves every field of the
    record (and the key supply) as it was, and a second call returns an
    equal mapping; on any record at all, a call that returns leaves the
    state unchanged. *)
Theorem to_dict_has_no_side_effect :
  (forall k a key self key',
     new k a key = Ok (self, key') ->
     forall key2, exists data,
       InputMedia_to_dict (World key2 self) = Ok (data, World key2 self)
       /\ (d1 <- InputMedia_to_dict ;; d2 <- InputMedia_to_dict ;; ret (d1, d2))
            (World key2 self)
          = Ok ((data, data), World key2 self))
  /\ (forall w data w', InputMedia_to_dict w = Ok (data, w') -> w' = w).
Proof.
  split; [|apply InputMedia_to_dict_frame].
  intros k a key self key' Hnew key2.
  pose proof (new_invariant _ _ _ _ _ Hnew) as (_ & Hce & _).
  pose proof (InputMedia_to_dict_run key2 _ _ Hce) as Hrun.
  exists (serialized self (arg_caption_entities a)).
  split; [done|]. unfold bind. rewrite Hrun, Hrun. reflexivity.
Qed.

(** The record of a photo built from a file identifier alone. *)
Lemma to_dict_has_no_side_effect_witness :
  exists data,
    InputMedia_to_dict
      (World 7 (<["caption_entities" := PyNone]>
                  (<["parse_mode" := DEFAULT_NONE]>
                     (<["media" := PyStr "file-id"]>
                        (<["type" := PyStr "photo"]> ∅)))))
    = Ok (data, World 7 (<["caption_entities" := PyNone]>
                           (<["parse_mode" := DEFAULT_NONE]>
                              (<["media" := PyStr "file-id"]>
                                 (<["type" := PyStr "photo"]> ∅))))).
Proof.
  destruct (proj1 to_dict_has_no_side_effect KPhoto (only_media (PyStr "file-id")) 0%nat
              (<["caption_entities" := PyNone]>
                 (<["parse_mode" := DEFAULT_NONE]>
                    (<["media" := PyStr "file-id"]> (<["type" := PyStr "photo"]> ∅))))
              0%nat eq_refl 7%nat)
    as (data & Hd & _).
  exists data. exact Hd.
Defined.

(** ** The caption entities key *)

(** C10, as stated, fails: a photo built with [caption_entities=[]] holds
    the empty list, which is a set field, and serializes with the
    [caption_entities] key (mapped to the empty sequence); the photo built
    without the argument serializes without the key. *)
Lemma empty_entity_list_is_serialized :
  exists self key' data self0 key0 data0,
    new KPhoto
      {| arg_media := PyStr "file-id";
         arg_thumb := PyNone; arg_caption := None; arg_parse_mode := None;
         arg_width := None; arg_height := None; arg_duration := None;
         arg_supports_streaming := None; arg_performer := None; arg_title := None;
         arg_disable_content_type_detection := None;
         arg_caption_entities := Some []; arg_filename := None |} 0%nat
    = Ok (self, key')
    /\ InputMedia_to_dict (World key' self) = Ok (data, World key' self)
    /\ new KPhoto (only_media (PyStr "file-id")) 0%nat = Ok (self0, key0)
    /\ InputMedia_to_dict (World key0 self0) = Ok (data0, World key0 self0)
    /\ self !! "caption_entities" = Some (PyList [])
    /\ data !! "caption_entities" = Some (PyList [])
    /\ data0 !! "caption_entities" = None
    /\ data <> data0.
Proof.
  match goal with
  | |- context [new KPhoto ?a 0%nat = Ok (_, _) /\ _] =>
      destruct (new_ok KPhoto a 0%nat eq_refl eq_refl) as (self & key' & Hnew)
  end.
  destruct (new_ok KPhoto (only_media (PyStr "file-id")) 0%nat eq_refl eq_refl)
    as (self0 & key0 & Hnew0).
  pose proof (new_invariant _ _ _ _ _ Hnew) as (_ & Hce & _).
  pose proof (new_invariant _ _ _ _ _ Hnew0) as (_ & Hce0 & _).
  cbn [arg_caption_entities only_media] in Hce, Hce0.
  exists self, key', (serialized self (Some [])), self0, key0, (serialized self0 None).
  assert (H1 : serialized self (Some []) !! "caption_entities" = Some (PyList [])).
  { rewrite lookup_serialized by done. by case_decide. }
  assert (H2 : serialized self0 None !! "caption_entities" = None).
  { rewrite lookup_serialized by done. by case_decide. }
  split; [done|]. split; [by apply InputMedia_to_dict_run|].
  split; [done|]. split; [by apply InputMedia_to_dict_run|].
  split; [done|]. split; [done|]. split; [done|].
  intros E. rewrite E, H2 in H1. discriminate.
Qed.

(** C10 (amended): every record of any of the five kinds has its
    [caption_entities] field assigned at construction, to the list passed
    or to [None]; the serialized mapping contains the [caption_entities]
    key if and only if the field holds a list, empty or not, and maps it to
    the sequence of the entities' mappings; without a list the key is
    absent. *)
Theorem caption_entities_key_iff_list k a key self key' :
  new k a key = Ok (self, key') ->
  self !! "caption_entities" = Some (py_entities (arg_caption_entities a))
  /\ exists data,
       (forall key2, InputMedia_to_dict (World key2 self) = Ok (data, World key2 self))
       /\ data !! "caption_entities"
          = (fun l => PyList ((fun e => PyDict (MessageEntity_to_dict e)) <$> l))
              <$> arg_caption_entities a
       /\ (is_Some (data !! "caption_entities")
           <-> exists l, self !! "caption_entities" = Some (PyList l)).
Proof.
  intros Hnew.
  pose proof (new_invariant _ _ _ _ _ Hnew) as (_ & Hce & _).
  split; [done|].
  exists (serialized self (arg_caption_entities a)).
  split; [intros; by apply InputMedia_to_dict_run|].
  assert (Hl : serialized self (arg_caption_entities a) !! "caption_entities"
               = (fun l => PyList (entity_dict <$> l)) <$> arg_caption_entities a).
  { rewrite lookup_serialized by done. by case_decide. }
  split; [exact Hl|].
  rewrite Hl, Hce. destruct (arg_caption_entities a) as [l|]; cbn.
  - split; eauto.
  - split; [by intros [? ?] | by intros [? ?]].
Qed.

(** The record of a photo built with one caption entity. *)
Lemma caption_entities_key_iff_list_witness :
  (<["caption_entities" := PyList [PyMessageEntity (mkMessageEntity "bold" 0 4)]]>
     (<["parse_mode" := PyStr "HTML"]>
        (<["media" := PyStr "file-id"]> (<["type" := PyStr "photo"]> ∅)))
   : gmap string pyval) !! "caption_entities"
  = Some (PyList [PyMessageEntity (mkMessageEntity "bold" 0 4)]).
Proof.
  exact (proj1 (caption_entities_key_iff_list KPhoto
    {| arg_media := PyStr "file-id";
       arg_thumb := PyNone; arg_caption := None; arg_parse_mode := Some "HTML";
       arg_width := None; arg_height := None; arg_duration := None;
       arg_supports_streaming := None; arg_performer := None; arg_title := None;
       arg_disable_content_type_detection := None;
       arg_caption_entities := Some [mkMessageEntity "bold" 0 4];
       arg_filename := None |} 0%nat _ 0%nat eq_refl)).
Defined.

(** ** Further properties: the attributes a record can have *)

Lemma names_within_empty names : names_within names ∅.
Proof. intros n [v Hv]. by rewrite lookup_empty in Hv. Qed.

Lemma names_within_insert names n v d :
  n ∈ names -> names_within names d -> names_within names (<[n := v]> d).
Proof.
  intros Hn Hd n'. rewrite lookup_insert. case_decide; [by subst | apply Hd].
Qed.

Lemma names_within_assign_if names n v d :
  n ∈ names -> names_within names d -> names_within names (assign_if n v d).
Proof.
  intros Hn Hd. unfold assign_if. destruct (truthy v); [by apply names_within_insert | done].
Qed.

Ltac in_list := apply (bool_decide_unpack _); vm_compute; exact I.

Ltac within :=
  repeat first [ apply names_within_insert; [in_list|]
               | apply names_within_assign_if; [in_list|] ];
  apply names_within_empty.

Lemma new_attribute_names k a key self key' :
  new k a key = Ok (self, key') ->
  (forall n, n ∈ always_assigned k -> is_Some (self !! n))
  /\ names_within (assignable k) self.
Proof.
  destruct a as [m t c pm w h d ss pf ti dc ce fn];
    destruct k; inv_new; (split; [|unfold assignable; within]);
    intros n Hn; unfold always_assigned in Hn;
    repeat (apply elem_of_cons in Hn as [->|Hn]);
    try (by apply elem_of_nil in Hn); lookups; eauto;
    match goal with |- is_Some (if ?b then _ else _) => destruct b; eauto end.
Qed.

(** X1: whatever the arguments, a constructed record has the attributes
    that its [__init__] assigns on every path ([type], [media],
    [parse_mode], [caption_entities], and for a document
    [disable_content_type_detection]), and has no attribute outside the
    ones its [__init__] names: a photo never has [thumb], [width] or
    [duration], a document never has [width], and so on. *)
Theorem record_attribute_names k a key self key' :
  new k a key = Ok (self, key') ->
  (forall n, n ∈ always_assigned k -> is_Some (self !! n))
  /\ (forall n, is_Some (self !! n) -> n ∈ assignable k).
Proof. apply new_attribute_names. Qed.

(** The record of a photo built from a file identifier alone. *)
Lemma record_attribute_names_witness :
  is_Some ((<["caption_entities" := PyNone]>
              (<["parse_mode" := DEFAULT_NONE]>
                 (<["media" := PyStr "file-id"]> (<["type" := PyStr "photo"]> ∅)))
            : gmap string pyval) !! "parse_mode")
  /\ (forall n,
        is_Some ((<["caption_entities" := PyNone]>
                    (<["parse_mode" := DEFAULT_NONE]>
                       (<["media" := PyStr "file-id"]> (<["type" := PyStr "photo"]> ∅)))
                  : gmap string pyval) !! n) ->
        n ∈ ["type"; "media"; "caption"; "parse_mode"; "caption_entities"]).
Proof.
  destruct (record_attribute_names KPhoto (only_media (PyStr "file-id")) 0%nat
              (<["caption_entities" := PyNone]>
                 (<["parse_mode" := DEFAULT_NONE]>
                    (<["media" := PyStr "file-id"]> (<["type" := PyStr "photo"]> ∅))))
              0%nat eq_refl) as [H1 H2].
  split; [|exact H2].
  apply H1. apply elem_of_cons. right. apply elem_of_cons. right.
  apply elem_of_cons. left. reflexivity.
Defined.

(** ** Further properties: the thumbnail *)

Lemma thumb_lookup k a key self key' :
  new k a key = Ok (self, key') ->
  self !! "thumb"
  = match k with
    | KPhoto => None
    | _ => if truthy (arg_thumb a)
           then Some (resolved (arg_thumb a) None (next_key (arg_media a) key))
           else None
    end
  /\ (k <> KPhoto -> truthy (arg_thumb a) = true -> is_file_input (arg_thumb a) = true).
Proof.
  destruct a as [m t]; destruct k; cbn [arg_media arg_thumb]; inv_new;
    media_cases; (split; [lookups; reflexivity|]); try done;
    intros _ _; by rewrite <- accepted_None.
Qed.



(** ** Further properties: a metadata object as media *)

Lemma object_media_lookup k a key self key' fid :
  isinstance (arg_media a) (metadata_class k) = true ->
  file_id (arg_media a) = Some fid ->
  new k a key = Ok (self, key') ->
  self !! "media" = Some (PyStr fid).
Proof.
  destruct a as [m]; cbn [arg_media]; intros Hi Hf.
  destruct k, m; try discriminate Hi; cbn in Hf; injection Hf as <-;
    inv_new; lookups; reflexivity.
Qed.

Lemma object_media_ignores_filename k a key fn :
  isinstance (arg_media a) (metadata_class k) = true ->
  new k (with_filename fn a) key = new k a key.
Proof.
  destruct a as [m]; unfold with_filename; cbn [arg_media]; intros Hi.
  destruct k, m; try discriminate Hi; run_new; reflexivity.
Qed.

(** X3: when [media] is the metadata object of the kind (an [Animation]
    for an animation, a [PhotoSize] for a photo, and so on), the record's
    [media] field and the [media] entry of the serialized mapping are the
    object's file identifier, and the custom [filename] plays no part: the
    call gives the same result with any other [filename]. *)
Theorem metadata_object_media_is_its_file_id k a key fid :
  isinstance (arg_media a) (metadata_class k) = true ->
  file_id (arg_media a) = Some fid ->
  thumb_ok k (arg_thumb a) = true ->
  exists self key' data,
    new k a key = Ok (self, key')
    /\ (forall key2, InputMedia_to_dict (World key2 self) = Ok (data, World key2 self))
    /\ self !! "media" = Some (PyStr fid)
    /\ data !! "media" = Some (PyStr fid)
    /\ forall fn, new k (with_filename fn a) key = new k a key.
Proof.
  intros Hi Hf Ht.
  assert (Hm : media_ok k (arg_media a) = true)
    by (unfold media_ok; rewrite Hi; apply orb_true_r).
  destruct (new_ok k a key Hm Ht) as (self & key' & Hnew).
  pose proof (new_invariant _ _ _ _ _ Hnew) as (_ & Hce & _).
  pose proof (object_media_lookup _ _ _ _ _ _ Hi Hf Hnew) as Hmedia.
  exists self, key', (serialized self (arg_caption_entities a)).
  split; [done|]. split; [intros; by apply InputMedia_to_dict_run|].
  split; [done|]. split.
  - rewrite lookup_serialized_ne by done. by rewrite Hmedia.
  - intros fn. by apply object_media_ignores_filename.
Qed.

(** An audio built from an [Audio] object under a custom file name. *)
Lemma metadata_object_media_is_its_file_id_witness :
  exists self key' data,
    new KAudio
      {| arg_media := PyAudio (mkAudio "file-id" 180 (Some "somebody") None);
         arg_thumb := PyNone; arg_caption := None; arg_parse_mode := None;
         arg_width := None; arg_height := None; arg_duration := None;
         arg_supports_streaming := None; arg_performer := None; arg_title := None;
         arg_disable_content_type_detection := None;
         arg_caption_entities := None; arg_filename := Some "song.mp3" |} 0%nat
    = Ok (self, key')
    /\ (forall key2, InputMedia_to_dict (World key2 self) = Ok (data, World key2 self))
    /\ self !! "media" = Some (PyStr "file-id")
    /\ data !! "media" = Some (PyStr "file-id").
Proof.
  match goal with
  | |- context [new KAudio ?a 0%nat] =>
      destruct (metadata_object_media_is_its_file_id KAudio a 0%nat "file-id"
                  eq_refl eq_refl eq_refl)
        as (self & key' & data & H1 & H2 & H3 & H4 & _)
  end.
  exists self, key', data. auto.
Defined.

(** ** Further properties: truthy optional arguments *)

Lemma guarded_truthy_lookup k a key self key' n v :
  new k a key = Ok (self, key') ->
  (n, v) ∈ guarded k a -> truthy v = true ->
  n <> "caption_entities" /\ self !! n = Some v /\ to_dict_value v = Some v.
Proof.
  intros Hnew Hin Hv. revert Hnew.
  destruct a as [m t c pm w h d ss pf ti dc ce fn];
    destruct k; cbn [guarded arg_media arg_caption arg_width arg_height arg_duration
                     arg_supports_streaming arg_performer arg_title] in *;
    repeat (apply elem_of_cons in Hin as [[= -> ->]|Hin]);
    try (by apply elem_of_nil in Hin);
    inv_new; (split; [discriminate|]);
    (split; [lookups; rewrite ?Hv; reflexivity|]);
    match type of Hv with
    | truthy (?f ?o) = true => clear -Hv; by destruct o
    end.
Qed.

(** X4: an optional argument that [__init__] stores under a truthiness
    test (caption, width, height, duration, performer, title,
    supports_streaming) and that is truthy is the record's field, also
    over a value copied from a metadata object, and it is the entry of the
    serialized mapping, unchanged. *)
Theorem truthy_guarded_argument_is_stored k a key self key' n v :
  new k a key = Ok (self, key') ->
  (n, v) ∈ guarded k a -> truthy v = true ->
  self !! n = Some v
  /\ exists data,
       (forall key2, InputMedia_to_dict (World key2 self) = Ok (data, World key2 self))
       /\ data !! n = Some v.
Proof.
  intros Hnew Hin Hv.
  pose proof (new_invariant _ _ _ _ _ Hnew) as (_ & Hce & _).
  destruct (guarded_truthy_lookup _ _ _ _ _ _ _ Hnew Hin Hv) as (Hn & Hself & Hval).
  split; [done|].
  exists (serialized self (arg_caption_entities a)).
  split; [intros; by apply InputMedia_to_dict_run|].
  rewrite lookup_serialized_ne by done. by rewrite Hself.
Qed.

(** An audio built from an [Audio] object with its own title. *)
Lemma truthy_guarded_argument_is_stored_witness :
  (<["title" := PyStr "Live"]>
     (<["caption_entities" := PyNone]>
        (<["parse_mode" := DEFAULT_NONE]>
           (<["title" := PyStr "Studio"]>
              (<["performer" := PyNone]>
                 (<["duration" := PyInt 180]>
                    (<["media" := PyStr "file-id"]>
                       (<["type" := PyStr "audio"]> ∅)))))))
   : gmap string pyval) !! "title" = Some (PyStr "Live").
Proof.
  refine (proj1 (truthy_guarded_argument_is_stored KAudio
    {| arg_media := PyAudio (mkAudio "file-id" 180 None (Some "Studio"));
       arg_thumb := PyNone; arg_caption := None; arg_parse_mode := None;
       arg_width := None; arg_height := None; arg_duration := None;
       arg_supports_streaming := None; arg_performer := None;
       arg_title := Some "Live";
       arg_disable_content_type_detection := None;
       arg_caption_entities := None; arg_filename := None |}
    0%nat _ 0%nat "title" (PyStr "Live") eq_refl _ eq_refl)).
  cbn [guarded arg_caption arg_duration arg_performer arg_title py_str py_int from_option].
  apply elem_of_cons. right. apply elem_of_cons. right. apply elem_of_cons. right.
  apply elem_of_cons. left. reflexivity.
Defined.

(** ** Further properties: [to_dict] and the base serializer *)

Lemma InputMedia_to_dict_off_entities w data w' n :
  InputMedia_to_dict w = Ok (data, w') ->
  n <> "caption_entities" ->
  data !! n = omap to_dict_value (self_dict w) !! n.
Proof.
  unfold InputMedia_to_dict, TelegramObject_to_dict.
  unfold bind at 1 2. unfold get_dict, ret.
  unfold bind at 1. unfold getattr.
  destruct (self_dict w !! "caption_entities") as [v|].
  - destruct (truthy v); [|by intros [= <- _]].
    unfold bind. destruct (entities_to_dict v w) as [[l w1]|e]; [|discriminate].
    intros [= <- _] Hn. by rewrite lookup_insert_ne.
  - cbn. by intros [= <- _].
Qed.

Lemma InputMedia_to_dict_falsy w :
  (forall v, self_dict w !! "caption_entities" = Some v -> truthy v = false) ->
  InputMedia_to_dict w = TelegramObject_to_dict w.
Proof.
  intros Hv. unfold InputMedia_to_dict.
  unfold bind at 1. unfold TelegramObject_to_dict at 1.
  unfold bind at 1. unfold get_dict, ret.
  unfold bind at 1. unfold getattr.
  destruct (self_dict w !! "caption_entities") as [v|] eqn:E.
  - by rewrite (Hv v eq_refl).
  - reflexivity.
Qed.

(** X5: [InputMedia.to_dict] changes the mapping of [super().to_dict()] at
    the [caption_entities] key only: whenever it returns, every other key
    has the entry of the base mapping; and on a record whose
    [caption_entities] is missing (the class attribute [None] then
    applies) or falsy, it returns the base mapping itself and does not
    raise. *)
Theorem to_dict_differs_from_base_only_at_caption_entities :
  (forall w data w',
     InputMedia_to_dict w = Ok (data, w') ->
     exists base,
       TelegramObject_to_dict w = Ok (base, w)
       /\ forall n, n <> "caption_entities" -> data !! n = base !! n)
  /\ (forall w,
        (forall v, self_dict w !! "caption_entities" = Some v -> truthy v = false) ->
        InputMedia_to_dict w = TelegramObject_to_dict w).
Proof.
  split; [|apply InputMedia_to_dict_falsy].
  intros w data w' Hd. exists (omap to_dict_value (self_dict w)).
  split; [reflexivity|]. intros n Hn. by eapply InputMedia_to_dict_off_entities.
Qed.

(** An object without instance attributes, and a record with two
    attributes. *)
Lemma to_dict_differs_from_base_only_at_caption_entities_witness :
  InputMedia_to_dict (World 0 ∅) = TelegramObject_to_dict (World 0 ∅)
  /\ exists base,
       TelegramObject_to_dict
         (World 0 (<["media" := PyStr "file-id"]> (<["type" := PyStr "photo"]> ∅)))
       = Ok (base, World 0 (<["media" := PyStr "file-id"]> (<["type" := PyStr "photo"]> ∅)))
       /\ forall n, n <> "caption_entities" ->
            (<["media" := PyStr "file-id"]> (<["type" := PyStr "photo"]> ∅)
             : gmap string pyval) !! n = base !! n.
Proof.
  split.
  - apply (proj2 to_dict_differs_from_base_only_at_caption_entities (World 0 ∅)).
    intros v Hv. cbn [self_dict] in Hv. rewrite lookup_empty in Hv. discriminate Hv.
  - apply (proj1 to_dict_differs_from_base_only_at_caption_entities
             (World 0 (<["media" := PyStr "file-id"]> (<["type" := PyStr "photo"]> ∅)))
             (<["media" := PyStr "file-id"]> (<["type" := PyStr "photo"]> ∅))
             (World 0 (<["media" := PyStr "file-id"]> (<["type" := PyStr "photo"]> ∅)))).
    vm_compute. reflexivity.
Defined.

(** ** Further properties: an object stands for its identifier and fields *)







(** ** Further properties: the arguments stored without a test *)

(** X8: [parse_mode] and [disable_content_type_detection] are stored
    without a test and serialized as passed: a parse mode string, the
    empty string included, is the [parse_mode] entry of the mapping; the
    mapping of a document has the [disable_content_type_detection] key
    exactly when a flag was passed, [False] included; no other kind ever
    serializes that key. *)
Theorem unguarded_arguments_are_serialized_as_passed k a key self key' :
  new k a key = Ok (self, key') ->
  exists data,
    (forall key2, InputMedia_to_dict (World key2 self) = Ok (data, World key2 self))
    /\ (forall s, arg_parse_mode a = Some s -> data !! "parse_mode" = Some (PyStr s))
    /\ data !! "disable_content_type_detection"
       = match k with
         | KDocument => PyBool <$> arg_disable_content_type_detection a
         | _ => None
         end.
Proof.
  intros Hnew.
  pose proof (new_invariant _ _ _ _ _ Hnew) as (_ & Hce & _).
  pose proof (unguarded_lookup _ _ _ _ _ Hnew) as (Hpm & Hdoc).
  pose proof (new_attribute_names _ _ _ _ _ Hnew) as (_ & Hnames).
  exists (serialized self (arg_caption_entities a)).
  split; [intros; by apply InputMedia_to_dict_run|]. split.
  - intros s Hs. rewrite lookup_serialized_ne by done. by rewrite Hpm, Hs.
  - rewrite lookup_serialized_ne by done.
    destruct k; try (rewrite (Hdoc eq_refl);
                     by destruct (arg_disable_content_type_detection a));
      (destruct (self !! "disable_content_type_detection") as [v|] eqn:E;
       [|reflexivity]);
      exfalso;
      (assert (Hin : "disable_content_type_detection" ∈ assignable _)
         by (apply Hnames; rewrite E; eauto));
      apply (bool_decide_pack _) in Hin; vm_compute in Hin; exact Hin.
Qed.

(** The record of a document built with an empty parse mode and the flag
    [False]. *)
Lemma unguarded_arguments_are_serialized_as_passed_witness :
  exists data,
    (forall key2,
       InputMedia_to_dict
         (World key2 (<["disable_content_type_detection" := PyBool false]>
                        (<["caption_entities" := PyNone]>
                           (<["parse_mode" := PyStr ""]>
                              (<["media" := PyStr "file-id"]>
                                 (<["type" := PyStr "document"]> ∅))))))
       = Ok (data, World key2 (<["disable_content_type_detection" := PyBool false]>
                                 (<["caption_entities" := PyNone]>
                                    (<["parse_mode" := PyStr ""]>
                                       (<["media" := PyStr "file-id"]>
                                          (<["type" := PyStr "document"]> ∅)))))))
    /\ data !! "parse_mode" = Some (PyStr "")
    /\ data !! "disable_content_type_detection" = Some (PyBool false).
Proof.
  destruct (unguarded_arguments_are_serialized_as_passed KDocument
    {| arg_media := PyStr "file-id";
       arg_thumb := PyNone; arg_caption := None; arg_parse_mode := Some "";
       arg_width := None; arg_height := None; arg_duration := None;
       arg_supports_streaming := None; arg_performer := None; arg_title := None;
       arg_disable_content_type_detection := Some false;
       arg_caption_entities := None; arg_filename := None |}
    0%nat _ 0%nat eq_refl) as (data & Hd & Hpm & Hflag).
  exists data. split; [exact Hd|]. split; [exact (Hpm "" eq_refl) | exact Hflag].
Defined.

(** ** Further properties: the discriminant identifies the kind *)

Lemma type_name_inj k1 k2 : type_name k1 = type_name k2 -> k1 = k2.
Proof. by destruct k1, k2. Qed.

(** X9: the [type] entry identifies the kind: constructed records of two
    different kinds serialize to mappings with different [type] entries,
    and so never to the same mapping, whatever their arguments. *)
Theorem serialized_type_identifies_the_kind k1 a1 key1 self1 key1' k2 a2 key2 self2 key2'
    data1 data2 :
  k1 <> k2 ->
  new k1 a1 key1 = Ok (self1, key1') ->
  new k2 a2 key2 = Ok (self2, key2') ->
  InputMedia_to_dict (World key1' self1) = Ok (data1, World key1' self1) ->
  InputMedia_to_dict (World key2' self2) = Ok (data2, World key2' self2) ->
  data1 !! "type" <> data2 !! "type" /\ data1 <> data2.
Proof.
  intros Hk Hn1 Hn2 Hd1 Hd2.
  pose proof (new_invariant _ _ _ _ _ Hn1) as (Ht1 & Hce1 & _).
  pose proof (new_invariant _ _ _ _ _ Hn2) as (Ht2 & Hce2 & _).
  rewrite (InputMedia_to_dict_run _ _ _ Hce1) in Hd1. injection Hd1 as <-.
  rewrite (InputMedia_to_dict_run _ _ _ Hce2) in Hd2. injection Hd2 as <-.
  assert (Hty : serialized self1 (arg_caption_entities a1) !! "type"
                <> serialized self2 (arg_caption_entities a2) !! "type").
  { rewrite !lookup_serialized_ne by done. rewrite Ht1, Ht2. cbn.
    intros [= Hty]. by apply Hk, type_name_inj. }
  split; [exact Hty|]. intros E. apply Hty. by rewrite E.
Qed.

(** A photo and a video built from the same file identifier. *)
Lemma serialized_type_identifies_the_kind_witness :
  (<["media" := PyStr "file-id"]> (<["type" := PyStr "photo"]> ∅)
   : gmap string pyval)
  <> <["media" := PyStr "file-id"]> (<["type" := PyStr "video"]> ∅).
Proof.
  refine (proj2 (serialized_type_identifies_the_kind
    KPhoto (only_media (PyStr "file-id")) 0%nat _ 0%nat
    KVideo (only_media (PyStr "file-id")) 0%nat _ 0%nat
    _ _ _ eq_refl eq_refl _ _)).
  - discriminate.
  - vm_compute. reflexivity.
  - vm_compute. reflexivity.
Defined.

(** ** The keys of the serialized mapping, from the arguments *)

Lemma resolved_accepted tg v fn key :
  accepted tg v = true ->
  resolved v fn key <> PyNone /\ resolved v fn key <> DEFAULT_NONE.
Proof. destruct v, tg as [[]|]; cbn; try discriminate; split; discriminate. Qed.

Lemma media_is_set k a key self key' :
  new k a key = Ok (self, key') ->
  exists v, self !! "media" = Some v /\ v <> PyNone /\ v <> DEFAULT_NONE.
Proof.
  destruct a as [m t c pm w h d ss pf ti dc ce fn]; destruct k; inv_new;
    (eexists; split; [lookups; reflexivity|]);
    first [ by eapply resolved_accepted | split; discriminate ].
Qed.

Lemma guarded_lookup k a key self key' n v :
  new k a key = Ok (self, key') ->
  (n, v) ∈ guarded k a ->
  self !! n = if truthy v then Some v else copied k (arg_media a) !! n.
Proof.
  intros Hnew Hin. destruct (truthy v) eqn:Hv.
  - by destruct (guarded_truthy_lookup _ _ _ _ _ _ _ Hnew Hin Hv) as (_ & ? & _).
  - by destruct (guarded_falsy_lookup _ _ _ _ _ _ _ Hnew Hin Hv) as (_ & ?).
Qed.

Ltac in_guarded :=
  solve [ repeat (apply elem_of_cons; first [ left; reflexivity | right ]) ].

Lemma assignable_cases k a n :
  n ∈ assignable k ->
  n = "type" \/ n = "media" \/ n = "parse_mode" \/ n = "caption_entities"
  \/ (n = "thumb" /\ k <> KPhoto)
  \/ (n = "disable_content_type_detection" /\ k = KDocument)
  \/ exists v, (n, v) ∈ guarded k a.
Proof.
  intros Hn. destruct k; unfold assignable in Hn;
    repeat (apply elem_of_cons in Hn as [->|Hn]);
    try (by apply elem_of_nil in Hn); auto 10;
    first [ do 4 right; left; split; [reflexivity | discriminate]
          | do 6 right; eexists; unfold guarded; in_guarded ].
Qed.

Lemma copied_is_guarded k a n v :
  copied k (arg_media a) !! n = Some v ->
  v <> DEFAULT_NONE /\ exists arg, (n, arg) ∈ guarded k a.
Proof.
  destruct k, (arg_media a); cbn [copied]; rewrite ?lookup_empty; try discriminate;
    rewrite !lookup_insert, lookup_empty;
    repeat (case_decide; subst; try discriminate);
    intros [= <-];
    (split; [try discriminate; by match goal with |- py_str ?o <> _ => destruct o end|]);
    eexists; unfold guarded; in_guarded.
Qed.

Lemma truthy_is_set v : truthy v = true -> v <> PyNone /\ v <> DEFAULT_NONE.
Proof. by destruct v. Qed.

Lemma record_fields_from_arguments k a key self key' n :
  new k a key = Ok (self, key') ->
  (exists v, self !! n = Some v /\ v <> PyNone /\ v <> DEFAULT_NONE)
  <-> supplied_or_defaulted k a n.
Proof.
  intros Hnew.
  pose proof (new_invariant _ _ _ _ _ Hnew) as (Hty & Hce & _).
  pose proof (unguarded_lookup _ _ _ _ _ Hnew) as (Hpm & Hdoc).
  pose proof (thumb_lookup _ _ _ _ _ Hnew) as (Hth & Hfile).
  pose proof (new_attribute_names _ _ _ _ _ Hnew) as (_ & Hnames).
  unfold supplied_or_defaulted. split.
  - intros (v & Hv & H1 & H2).
    assert (Hin : n ∈ assignable k) by (apply Hnames; rewrite Hv; eauto).
    destruct (assignable_cases k a n Hin)
      as [-> | [-> | [-> | [-> | [[-> Hk] | [[-> ->] | [arg Harg]]]]]]].
    + auto.
    + auto.
    + do 5 right; left. split; [done|]. rewrite Hpm in Hv.
      destruct (arg_parse_mode a); [eauto | by injection Hv as <-].
    + do 6 right; left. split; [done|]. rewrite Hce in Hv.
      destruct (arg_caption_entities a); [eauto | by injection Hv as <-].
    + do 4 right; left. split; [done|]. split; [done|].
      rewrite Hth in Hv. destruct k; try done; by destruct (truthy (arg_thumb a)).
    + do 7 right. split; [done|]. split; [done|]. rewrite (Hdoc eq_refl) in Hv.
      destruct (arg_disable_content_type_detection a); [eauto | by injection Hv as <-].
    + rewrite (guarded_lookup _ _ _ _ _ _ _ Hnew Harg) in Hv.
      destruct (truthy arg) eqn:Ht.
      * right; right; left. eauto.
      * do 3 right; left. eauto.
  - intros [-> | [-> | [(v & Hin & Ht) | [(v & Hc & Hv) | [(-> & Hk & Ht)
      | [(-> & [s Hs]) | [(-> & [l Hl]) | (-> & -> & [b Hb])]]]]]]].
    + eexists. split; [exact Hty|]. split; discriminate.
    + by eapply media_is_set.
    + exists v. rewrite (guarded_lookup _ _ _ _ _ _ _ Hnew Hin), Ht.
      split; [done|]. by apply truthy_is_set.
    + destruct (copied_is_guarded _ _ _ _ Hc) as (Hd & arg & Harg).
      rewrite (guarded_lookup _ _ _ _ _ _ _ Hnew Harg).
      destruct (truthy arg) eqn:Ht.
      * exists arg. split; [done|]. by apply truthy_is_set.
      * exists v. by rewrite Hc.
    + eexists. split.
      * rewrite Hth, Ht. by destruct k.
      * eapply resolved_accepted. rewrite accepted_None. by apply Hfile.
    + rewrite Hpm, Hs. eexists. split; [done|]. split; discriminate.
    + rewrite Hce, Hl. eexists. split; [done|]. split; discriminate.
    + rewrite (Hdoc eq_refl), Hb. eexists. split; [done|]. split; discriminate.
Qed.

(** C2 (amended): for every record of each of the five kinds, serializing
    right after construction yields a mapping whose keys are exactly the
    fields that were supplied or defaulted at construction, where an
    argument stored under a truthiness test counts as supplied when it is
    truthy and what is copied from a metadata object counts as defaulted;
    these are the fields that the record holds with a value, every unset
    field ([None], or the parse mode left at its default) is absent, and
    no key maps to null.  Constructing any of the five kinds with only a
    media argument yields only the [type] and [media] keys, unless the
    media is the [Animation], [Video] or [Audio] object from which that
    kind copies width, height and duration (resp. duration, performer and
    title). *)
Theorem to_dict_keys_are_the_set_fields :
  (forall k a key self key',
     new k a key = Ok (self, key') ->
     exists data,
       (forall key2, InputMedia_to_dict (World key2 self) = Ok (data, World key2 self))
       /\ (forall n, is_Some (data !! n) <-> supplied_or_defaulted k a n)
       /\ (forall n, is_Some (data !! n)
                     <-> exists v, self !! n = Some v /\ v <> PyNone /\ v <> DEFAULT_NONE)
       /\ (forall n, data !! n <> Some PyNone))
  /\ (forall k media key,
        media_ok k media = true -> copies_metadata k media = false ->
        exists self key' data,
          new k (only_media media) key = Ok (self, key')
          /\ (forall key2, InputMedia_to_dict (World key2 self) = Ok (data, World key2 self))
          /\ data !! "type" = Some (PyStr (type_name k))
          /\ is_Some (data !! "media")
          /\ dom data = {[ "type"; "media" ]}).
Proof.
  split.
  - intros k a key self key' Hnew.
    pose proof (new_invariant _ _ _ _ _ Hnew) as (_ & Hce & Hwf).
    exists (serialized self (arg_caption_entities a)).
    split; [intros; by apply InputMedia_to_dict_run|].
    split; [|split]; intros n.
    + rewrite <- (record_fields_from_arguments _ _ _ _ _ n Hnew).
      by apply serialized_keys.
    + by apply serialized_keys.
    + by apply serialized_not_null.
  - intros k media key Hm Hc.
    assert (Ht : thumb_ok k (arg_thumb (only_media media)) = true) by (by destruct k).
    destruct (new_ok k (only_media media) key Hm Ht) as (self & key' & Hnew).
    pose proof (new_invariant _ _ _ _ _ Hnew) as (_ & Hce & _).
    exists self, key', (serialized self None).
    split; [done|]. split; [intros; by apply InputMedia_to_dict_run|].
    by eapply only_media_keys.
Qed.

(** A photo built from a file identifier alone, and a photo built with a
    caption. *)
Lemma to_dict_keys_are_the_set_fields_witness :
  (exists self key' data,
     new KPhoto (only_media (PyStr "file-id")) 0%nat = Ok (self, key')
     /\ (forall key2, InputMedia_to_dict (World key2 self) = Ok (data, World key2 self))
     /\ data !! "type" = Some (PyStr "photo")
     /\ is_Some (data !! "media")
     /\ dom data = {[ "type"; "media" ]}
     /\ (forall n, data !! n <> Some PyNone))
  /\ (exists data,
        (forall key2,
           InputMedia_to_dict
             (World key2 (<["caption_entities" := PyNone]>
                            (<["parse_mode" := DEFAULT_NONE]>
                               (<["caption" := PyStr "hello"]>
                                  (<["media" := PyStr "file-id"]>
                                     (<["type" := PyStr "photo"]> ∅))))))
           = Ok (data, World key2 (<["caption_entities" := PyNone]>
                                     (<["parse_mode" := DEFAULT_NONE]>
                                        (<["caption" := PyStr "hello"]>
                                           (<["media" := PyStr "file-id"]>
                                              (<["type" := PyStr "photo"]> ∅)))))))
        /\ is_Some (data !! "caption")).
Proof.
  split.
  - destruct (proj2 to_dict_keys_are_the_set_fields KPhoto (PyStr "file-id") 0%nat
                eq_refl eq_refl) as (self & key' & data & Hnew & Hd & Hty & Hm & Hdom).
    destruct (proj1 to_dict_keys_are_the_set_fields _ _ _ _ _ Hnew)
      as (data' & Hd' & _ & _ & Hnull).
    exists self, key', data. repeat (split; [assumption|]).
    pose proof (Hd 0%nat) as E. rewrite (Hd' 0%nat) in E. injection E as ->.
    exact Hnull.
  - destruct (proj1 to_dict_keys_are_the_set_fields KPhoto
      {| arg_media := PyStr "file-id";
         arg_thumb := PyNone; arg_caption := Some "hello"; arg_parse_mode := None;
         arg_width := None; arg_height := None; arg_duration := None;
         arg_supports_streaming := None; arg_performer := None; arg_title := None;
         arg_disable_content_type_detection := None;
         arg_caption_entities := None; arg_filename := None |}
      0%nat _ 0%nat eq_refl) as (data & Hd & Hkeys & _).
    exists data. split; [exact Hd|]. apply Hkeys.
    right; right; left. exists (PyStr "hello"). split; [|reflexivity].
    apply elem_of_cons. left. reflexivity.
Defined.
